(** * Typesense demo API (src/main.py): a shallow embedding and its properties

    The program is a FastAPI application that forwards requests to an
    external Typesense engine through one shared client.  The embedding
    keeps the shape of the Python source:

    - Python values that travel to and from the client (parsed JSON,
      request and response bodies) are the type [value];
    - the [search_params] dictionaries the handlers build and update by key
      are [gmap string value];
    - code that can raise runs in the monad [M]: explicit state passing
      with an exception result, [try_except] for [try: ... except ...:];
    - the engine behind the client is unknown: it is a transition function
      [engine : call -> World -> result value * World] over an arbitrary
      type of worlds, a binder of every definition that talks to it;
    - what the process does to the outside (client calls with their
      outcome, [time.sleep], [print]) is recorded in a trace of events. *)

From Stdlib Require Import ZArith String List Lia.
From Stdlib Require Import Floats.PrimFloat Floats.SpecFloat Floats.FloatOps.
From stdpp Require Import gmap strings list fin_maps pretty.

#[local] Set Warnings "-register-all".
#[local] Open Scope Z_scope.
#[local] Open Scope string_scope.

(** ** Python values *)

(** Values of the Python program that are JSON-shaped: what the client
    returns, what the handlers send and answer.  A [dict] keeps its
    insertion order, as in Python; its keys are strings. *)
Inductive value : Type :=
| VNone
| VBool (b : bool)
| VInt (z : Z)
| VFloat (f : float)
| VStr (s : string)
| VList (l : list value)
| VDict (d : list (string * value)).

(** An instance of a subclass of [Exception]: the name of its class and
    what [str(e)] (hence [f"{e}"]) gives. *)
Record exception : Type := Exception { exc_type : string; exc_str : string }.

Inductive result (A : Type) : Type :=
| Ok (a : A)
| Raise (e : exception).
Arguments Ok {A} a.
Arguments Raise {A} e.

Definition is_raise {A} (r : result A) : bool :=
  match r with Ok _ => false | Raise _ => true end.

(** The name [type(v).__name__] of a value, used in the messages of the
    interpreter's [TypeError]s. *)
Definition type_name (v : value) : string :=
  match v with
  | VNone => "NoneType"
  | VBool _ => "bool"
  | VInt _ => "int"
  | VFloat _ => "float"
  | VStr _ => "str"
  | VList _ => "list"
  | VDict _ => "dict"
  end.

(** The exceptions the interpreter itself raises in this program.  Their
    texts follow CPython 3.11; no property below depends on a text. *)
Definition KeyError (k : string) : exception :=
  Exception "KeyError" ("'" +:+ k +:+ "'").
Definition TypeError (msg : string) : exception := Exception "TypeError" msg.
Definition AttributeError (msg : string) : exception :=
  Exception "AttributeError" msg.
Definition OverflowError (msg : string) : exception :=
  Exception "OverflowError" msg.
Definition ZeroDivisionError : exception :=
  Exception "ZeroDivisionError" "integer division or modulo by zero".

(** [d[k]] on a dict held as an ordered list of items. *)
Fixpoint dict_lookup (k : string) (d : list (string * value)) : option value :=
  match d with
  | [] => None
  | (k', v) :: d' => if String.eqb k k' then Some v else dict_lookup k d'
  end.

(** [k in v] for a string [k] where [v] is a dict (the only use in the
    source is ['facet_counts' in results] on a search result). *)
Definition dict_contains (k : string) (d : list (string * value)) : bool :=
  match dict_lookup k d with Some _ => true | None => false end.

(** [v[k]] with a string key [k]. *)
Definition getitem (v : value) (k : string) : result value :=
  match v with
  | VDict d =>
      match dict_lookup k d with
      | Some x => Ok x
      | None => Raise (KeyError k)
      end
  | VList _ =>
      Raise (TypeError "list indices must be integers or slices, not str")
  | VStr _ => Raise (TypeError "string indices must be integers, not 'str'")
  | _ => Raise (TypeError ("'" +:+ type_name v +:+ "' object is not subscriptable"))
  end.

(** [v.get(k, default)]: only a dict has the method. *)
Definition dict_get (v : value) (k : string) (default : value) : result value :=
  match v with
  | VDict d =>
      match dict_lookup k d with
      | Some x => Ok x
      | None => Ok default
      end
  | _ => Raise (AttributeError
                  ("'" +:+ type_name v +:+ "' object has no attribute 'get'"))
  end.

(** The one-character strings of a string, as iteration yields them. *)
Fixpoint chars (s : string) : list value :=
  match s with
  | EmptyString => []
  | String c s' => VStr (String c EmptyString) :: chars s'
  end.

(** [for x in v]: the items a value yields when iterated. *)
Definition py_iter (v : value) : result (list value) :=
  match v with
  | VList l => Ok l
  | VDict d => Ok (map (fun kv => VStr (fst kv)) d)
  | VStr s => Ok (chars s)
  | _ => Raise (TypeError ("'" +:+ type_name v +:+ "' object is not iterable"))
  end.

(** [len(v)]. *)
Definition py_len (v : value) : result Z :=
  match v with
  | VList l => Ok (Z.of_nat (length l))
  | VDict d => Ok (Z.of_nat (length d))
  | VStr s => Ok (Z.of_nat (String.length s))
  | _ => Raise (TypeError ("object of type '" +:+ type_name v +:+ "' has no len()"))
  end.

(** ** Numbers *)

(** [float(z)] for an integer: the nearest binary64 value. *)
Definition float_of_Z (z : Z) : float :=
  SF2Prim (binary_normalize prec emax z 0 false).

(** A Python number that is an [int] or a [float]: [retry_delay] starts as
    the int [2] and becomes a float at the first [*= 1.5]. *)
Inductive number : Type :=
| NInt (z : Z)
| NFloat (f : float).

Definition number_to_float (n : number) : float :=
  match n with
  | NInt z => float_of_Z z
  | NFloat f => f
  end.

(** [n * f] for a float [f]: the int operand is converted first. *)
Definition number_mul_float (n : number) (f : float) : number :=
  NFloat (PrimFloat.mul (number_to_float n) f).

(** [a + b] where [a] is an int or a float (the running [total_docs]).
    [bool] is a subclass of [int]; an int too large for a float raises. *)
Definition int_to_float (z : Z) : result float :=
  let f := float_of_Z z in
  if PrimFloat.is_infinity f
  then Raise (OverflowError "int too large to convert to float")
  else Ok f.

Definition py_add (a b : value) : result value :=
  let bad :=
    Raise (TypeError ("unsupported operand type(s) for +=: '" +:+ type_name a
                      +:+ "' and '" +:+ type_name b +:+ "'")) in
  let as_int (v : value) : option Z :=
    match v with
    | VInt z => Some z
    | VBool b => Some (if b then 1 else 0)
    | _ => None
    end in
  match a, b with
  | VFloat x, VFloat y => Ok (VFloat (PrimFloat.add x y))
  | VFloat x, _ =>
      match as_int b with
      | Some z =>
          match int_to_float z with
          | Ok y => Ok (VFloat (PrimFloat.add x y))
          | Raise e => Raise e
          end
      | None => bad
      end
  | _, VFloat y =>
      match as_int a with
      | Some z =>
          match int_to_float z with
          | Ok x => Ok (VFloat (PrimFloat.add x y))
          | Raise e => Raise e
          end
      | None => bad
      end
  | _, _ =>
      match as_int a, as_int b with
      | Some x, Some y => Ok (VInt (x + y))
      | _, _ => bad
      end
  end.

(** [a // b] on ints: floor division, [ZeroDivisionError] on [b = 0].
    [Z.div] rounds toward minus infinity for either sign of [b], as
    Python does. *)
Definition floordiv (a b : Z) : result Z :=
  if Z.eqb b 0 then Raise ZeroDivisionError else Ok (Z.div a b).

(** [sep.join(v)]: the items of [v] must all be strings. *)
Fixpoint all_str (l : list value) : option (list string) :=
  match l with
  | [] => Some []
  | VStr s :: l' =>
      match all_str l' with
      | Some ss => Some (s :: ss)
      | None => None
      end
  | _ :: _ => None
  end.

Definition str_join (sep : string) (v : value) : result string :=
  match py_iter v with
  | Raise _ => Raise (TypeError "can only join an iterable")
  | Ok items =>
      match all_str items with
      | Some ss => Ok (String.concat sep ss)
      | None => Raise (TypeError "sequence item: expected str instance")
      end
  end.

(** [[f(x) for x in l]] where [f] can raise: the first failure ends it. *)
Fixpoint result_map {A B} (f : A -> result B) (l : list A) : result (list B) :=
  match l with
  | [] => Ok []
  | x :: l' =>
      match f x with
      | Raise e => Raise e
      | Ok y =>
          match result_map f l' with
          | Raise e => Raise e
          | Ok ys => Ok (y :: ys)
          end
      end
  end.

#[export] Instance result_ret : MRet result := fun A a => Ok a.

#[export] Instance result_bind : MBind result :=
  fun A B k r =>
    match r with
    | Ok a => k a
    | Raise e => Raise e
    end.

(** [v == s] for a string [s]: only an equal string is equal to it. *)
Definition str_eq (v : value) (s : string) : bool :=
  match v with
  | VStr s' => String.eqb s' s
  | _ => false
  end.

(** [sub in s] on strings. *)
Fixpoint is_substring (sub s : string) : bool :=
  if String.prefix sub s then true
  else match s with
       | EmptyString => false
       | String _ s' => is_substring sub s'
       end.

(** [k in v] for a string [k]: a key of a dict, an item of a list, a
    substring of a string. *)
Definition py_contains (k : string) (v : value) : result bool :=
  match v with
  | VDict d => Ok (dict_contains k d)
  | VList l => Ok (existsb (fun x => str_eq x k) l)
  | VStr s => Ok (is_substring k s)
  | _ => Raise (TypeError ("argument of type '" +:+ type_name v
                           +:+ "' is not iterable"))
  end.

(** [range(n)]. *)
Definition range (n : Z) : list Z := map Z.of_nat (seq 0 (Z.to_nat n)).

(** ** The client and the outside world *)

(** The calls the program makes on the typesense client.  A collection
    name is whatever value the program passes (one of them is read from a
    client result), a document id is the [str] path parameter. *)
Inductive call : Type :=
| collections_retrieve
| collections_create (schema : value)
| collection_retrieve (name : value)
| collection_delete (name : value)
| documents_search (name : value) (search_params : gmap string value)
| documents_create (name : value) (document : value)
| documents_import (name : value) (documents : value)
| document_retrieve (name : value) (id : string)
| document_delete (name : value) (id : string).

(** What the process does to the outside, in order. *)
Inductive event : Type :=
| ECall (c : call) (r : result value)
| ESleep (secs : number)
| EPrint (line : string).

Record state (World : Type) : Type :=
  State { world : World; trace : list event }.
Arguments State {World} world trace.
Arguments world {World} s.
Arguments trace {World} s.

(** Code that can raise and that acts on the outside. *)
Definition M (World A : Type) : Type :=
  state World -> result A * state World.

#[export] Instance M_ret {World} : MRet (M World) :=
  fun A a s => (Ok a, s).

#[export] Instance M_bind {World} : MBind (M World) :=
  fun A B k m s =>
    match m s with
    | (Ok a, s') => k a s'
    | (Raise e, s') => (Raise e, s')
    end.

(** A pure computation that can raise, run inside [M]. *)
Definition lift {World A} (r : result A) : M World A := fun s => (r, s).

(** [try: body except Exception as e: handler(e)]. *)
Definition try_except {World A} (body : M World A)
    (handler : exception -> M World A) : M World A :=
  fun s =>
    match body s with
    | (Ok a, s') => (Ok a, s')
    | (Raise e, s') => handler e s'
    end.

Definition time_sleep {World} (secs : number) : M World unit :=
  fun s => (Ok tt, State (world s) (trace s ++ [ESleep secs])).

Definition print {World} (line : string) : M World unit :=
  fun s => (Ok tt, State (world s) (trace s ++ [EPrint line])).

(** Unfolds the operations of [M] in the goal. *)
Ltac unfold_M :=
  unfold mbind, M_bind, mret, M_ret, lift, try_except; cbn beta.

(** The client calls of a trace, and its sleeps. *)
Definition calls_of (t : list event) : list call :=
  omap (fun ev => match ev with ECall c _ => Some c | _ => None end) t.

Definition sleeps_of (t : list event) : list number :=
  omap (fun ev => match ev with ESleep d => Some d | _ => None end) t.

(** ** Request models and constants of the module *)

Module Product.
Record t : Type := {
  id : string;
  name : string;
  description : string;
  category : string;
  price : float;
  rating : float;
  tags : list string
}.

(** [product.dict()]. *)
Definition dict (p : t) : value :=
  VDict [("id", VStr (id p)); ("name", VStr (name p));
         ("description", VStr (description p));
         ("category", VStr (category p)); ("price", VFloat (price p));
         ("rating", VFloat (rating p)); ("tags", VList (map VStr (tags p)))].
End Product.

Record SearchQuery : Type := {
  query : string;
  category : option string;
  min_price : option float;
  max_price : option float
}.

(** What a request handler answers: the body it returns, or the
    [HTTPException] it raises. *)
Inductive response : Type :=
| Body (v : value)
| HTTPException (status_code : Z) (detail : string).

Definition COLLECTION_NAME : value := VStr "products".

Definition schema_field (n t : string) (facet : bool) : value :=
  VDict ([("name", VStr n); ("type", VStr t)]
         ++ if facet then [("facet", VBool true)] else []).

Definition COLLECTION_SCHEMA : value :=
  VDict [("name", COLLECTION_NAME);
         ("fields", VList [schema_field "id" "string" false;
                           schema_field "name" "string" false;
                           schema_field "description" "string" false;
                           schema_field "category" "string" true;
                           schema_field "price" "float" true;
                           schema_field "rating" "float" true;
                           schema_field "tags" "string[]" true]);
         ("default_sorting_field", VStr "rating")].

#[local] Set Warnings "-inexact-float".

(** A sample record is a dict literal with the keys of [Product], in the
    same order. *)
Definition sample_product (i n d c : string) (p r : float) (t : list string) : value :=
  Product.dict {| Product.id := i; Product.name := n; Product.description := d;
                  Product.category := c; Product.price := p;
                  Product.rating := r; Product.tags := t |}.

Definition sample_products : value :=
  VList [sample_product "1" "iPhone 15 Pro"
           "Latest Apple smartphone with advanced camera system"
           "Electronics" 999.99 4.7 ["smartphone"; "apple"; "premium"; "camera"];
         sample_product "2" "Samsung Galaxy S24"
           "Flagship Android phone with AI features"
           "Electronics" 899.99 4.5 ["smartphone"; "samsung"; "android"; "AI"];
         sample_product "3" "MacBook Pro M3"
           "Professional laptop with M3 chip"
           "Computers" 1999.99 4.8 ["laptop"; "apple"; "professional"; "M3"];
         sample_product "4" "Dell XPS 13"
           "Ultrabook with premium design"
           "Computers" 1299.99 4.4 ["laptop"; "dell"; "ultrabook"; "portable"];
         sample_product "5" "Sony WH-1000XM5"
           "Noise-canceling wireless headphones"
           "Audio" 399.99 4.6 ["headphones"; "sony"; "wireless"; "noise-canceling"]].

(** The parameters of a search that only counts: [{'q': '*', 'per_page': 0}]. *)
Definition count_params : gmap string value :=
  {[ "q" := VStr "*"; "per_page" := VInt 0 ]}.

(** The routes of the application with the parameters FastAPI extracts. *)
Inductive request : Type :=
| GET_root
| GET_health
| GET_products (limit offset : Z)
| POST_products (product : Product.t)
| GET_product (product_id : string)
| DELETE_product (product_id : string)
| POST_search (search_query : SearchQuery)
| GET_admin_collections
| GET_admin_collection (collection_name : string)
| GET_admin_collection_stats (collection_name : string)
| GET_admin_typesense_stats
| GET_categories
| GET_recommendations (product_id : string) (limit : Z).

(** ** The program, over an arbitrary engine *)

Section Program.
Context {World : Type}.

(** The typesense client in front of the external engine: what a call
    returns or raises, and the world after it. *)
Variable engine : call -> World -> result value * World.

(** [repr] of a float, as an f-string renders it (the shortest decimal
    text that reads back to the same float): not modelled, a parameter. *)
Variable float_repr : float -> string.

(** A call on the client; the trace records it with its outcome. *)
Definition client (c : call) : M World value :=
  fun s =>
    let '(r, w) := engine c (world s) in
    (r, State w (trace s ++ [ECall c r])).

(** [f"{n}"] for an int or a float. *)
Definition number_str (n : number) : string :=
  match n with
  | NInt z => pretty z
  | NFloat f => float_repr f
  end.

(** *** setup_typesense *)

Definition max_retries : Z := 10.

(** How one turn of the [for] loop ends. *)
Inductive control : Type := Continue | Break | Return.

(** The body of [for attempt in range(max_retries)]; it gives the way
    the turn ends and the value of the local [retry_delay] after it. *)
Definition attempt_body (attempt : Z) (retry_delay : number)
    : M World (control * number) :=
  try_except
    (_ ← client collections_retrieve;
     print ("Connected to Typesense on attempt " +:+ pretty (attempt + 1));;
     mret (Break, retry_delay))
    (fun e =>
       if (attempt <? max_retries - 1)%Z then
         print ("Attempt " +:+ pretty (attempt + 1) +:+ " failed: "
                +:+ exc_str e +:+ ". Retrying in "
                +:+ number_str retry_delay +:+ " seconds...");;
         time_sleep retry_delay;;
         mret (Continue, number_mul_float retry_delay 1.5%float)
       else
         print ("Failed to connect to Typesense after "
                +:+ pretty max_retries +:+ " attempts: " +:+ exc_str e);;
         mret (Return, retry_delay)).

(** The [for] loop: [Continue] when it ran to the end of the range. *)
Fixpoint for_attempts (attempts : list Z) (retry_delay : number)
    : M World control :=
  match attempts with
  | [] => mret Continue
  | attempt :: rest =>
      r ← attempt_body attempt retry_delay;
      match fst r with
      | Continue => for_attempts rest (snd r)
      | c => mret c
      end
  end.

(** The second [try] of [setup_typesense]: drop, create, import. *)
Definition create_and_populate : M World unit :=
  try_except
    (try_except
       (_ ← client (collection_delete COLLECTION_NAME); mret tt)
       (fun _ => mret tt);;
     _ ← client (collections_create COLLECTION_SCHEMA);
     _ ← client (documents_import COLLECTION_NAME sample_products);
     print "Typesense setup completed successfully!")
    (fun e => print ("Error setting up Typesense: " +:+ exc_str e)).

Definition setup_typesense : M World unit :=
  c ← for_attempts (range max_retries) (NInt 2);
  match c with
  | Return => mret tt
  | _ => create_and_populate
  end.

(** *** Request handlers *)

Definition handler : Type := state World -> response * state World.

(** [try: body (ending in return) except Exception as e: on_error(e)],
    the shape of every handler; [on_error] raises an [HTTPException]
    (or, in [health_check], returns a body). *)
Definition try_http (body : M World value)
    (on_error : exception -> response) : handler :=
  fun s =>
    match body s with
    | (Ok v, s') => (Body v, s')
    | (Raise e, s') => (on_error e, s')
    end.

(** [search_params[k]]. *)
Definition params_getitem (p : gmap string value) (k : string) : result value :=
  match p !! k with
  | Some v => Ok v
  | None => Raise (KeyError k)
  end.

Definition root : handler :=
  fun s => (Body (VDict [("message", VStr "Welcome to Typesense Demo API")]), s).

Definition health_check : handler :=
  try_http
    (collections ← client collections_retrieve;
     n ← lift (py_len collections);
     mret (VDict [("status", VStr "healthy"); ("typesense", VBool true);
                  ("collections", VInt n)]))
    (fun e => Body (VDict [("status", VStr "degraded");
                           ("typesense", VBool false);
                           ("error", VStr (exc_str e))])).

Definition get_all_products (limit offset : Z) : handler :=
  try_http
    (q ← lift (floordiv offset limit);
     let search_params : gmap string value :=
       {[ "q" := VStr "*"; "per_page" := VInt limit; "page" := VInt (q + 1) ]} in
     results ← client (documents_search COLLECTION_NAME search_params);
     total ← lift (getitem results "found");
     page ← lift (params_getitem search_params "page");
     hits ← lift (getitem results "hits");
     items ← lift (py_iter hits);
     products ← lift (result_map (fun hit => getitem hit "document") items);
     mret (VDict [("total", total); ("page", page); ("per_page", VInt limit);
                  ("products", VList products)]))
    (fun e => HTTPException 400 ("Failed to get products: " +:+ exc_str e)).

Definition add_product (product : Product.t) : handler :=
  try_http
    (result ← client (documents_create COLLECTION_NAME (Product.dict product));
     mret (VDict [("message", VStr "Product added successfully");
                  ("product", result)]))
    (fun e => HTTPException 400 ("Failed to add product: " +:+ exc_str e)).

Definition get_product (product_id : string) : handler :=
  try_http
    (product ← client (document_retrieve COLLECTION_NAME product_id);
     mret product)
    (fun e => HTTPException 404 ("Product not found: " +:+ exc_str e)).

Definition delete_product (product_id : string) : handler :=
  try_http
    (_ ← client (document_delete COLLECTION_NAME product_id);
     mret (VDict [("message",
                   VStr ("Product " +:+ product_id +:+ " deleted successfully"))]))
    (fun e => HTTPException 404 ("Failed to delete product: " +:+ exc_str e)).

(** The list [filters] of [search_products] after its three [if]s. *)
Definition search_filters (search_query : SearchQuery) : list string :=
  let filters : list string := [] in
  let filters :=
    match category search_query with
    | Some c =>
        (* [if search_query.category:] a string is true when not empty *)
        if String.eqb c "" then filters
        else (filters ++ ["category:=" +:+ c])%list
    | None => filters
    end in
  let filters :=
    match min_price search_query with
    | Some p => (filters ++ ["price:>=" +:+ float_repr p])%list
    | None => filters
    end in
  let filters :=
    match max_price search_query with
    | Some p => (filters ++ ["price:<=" +:+ float_repr p])%list
    | None => filters
    end in
  filters.

(** The dict [search_params] of [search_products] when the search is made. *)
Definition search_params_of (search_query : SearchQuery) : gmap string value :=
  let search_params : gmap string value :=
    {[ "q" := VStr (query search_query);
       "query_by" := VStr "name,description,tags";
       "sort_by" := VStr "rating:desc,price:asc" ]} in
  let filters := search_filters search_query in
  match filters with
  | [] => search_params
  | _ :: _ => <["filter_by" := VStr (String.concat " && " filters)]> search_params
  end.

Definition search_products (search_query : SearchQuery) : handler :=
  try_http
    (let search_params := search_params_of search_query in
     results ← client (documents_search COLLECTION_NAME search_params);
     found ← lift (getitem results "found");
     hits ← lift (getitem results "hits");
     mret (VDict [("query", VStr (query search_query)); ("found", found);
                  ("results", hits)]))
    (fun e => HTTPException 400 ("Search failed: " +:+ exc_str e)).

Definition get_all_collections : handler :=
  try_http
    (collections ← client collections_retrieve;
     mret (VDict [("collections", collections)]))
    (fun e => HTTPException 400 ("Failed to get collections: " +:+ exc_str e)).

Definition get_collection_info (collection_name : string) : handler :=
  try_http
    (collection ← client (collection_retrieve (VStr collection_name));
     mret collection)
    (fun e => HTTPException 404 ("Collection not found: " +:+ exc_str e)).

Definition get_collection_stats (collection_name : string) : handler :=
  try_http
    (collection_info ← client (collection_retrieve (VStr collection_name));
     search_result ←
       client (documents_search (VStr collection_name) count_params);
     document_count ← lift (getitem search_result "found");
     search_time_ms ← lift (dict_get search_result "search_time_ms" (VInt 0));
     mret (VDict [("collection_name", VStr collection_name);
                  ("schema", collection_info);
                  ("document_count", document_count);
                  ("search_time_ms", search_time_ms)]))
    (fun e => HTTPException 400
                ("Failed to get collection stats: " +:+ exc_str e)).

(** The entry the bare [except:] of [get_typesense_stats] appends. *)
Definition unknown_entry (collection : value) : result value :=
  n ← getitem collection "name";
  fields ← dict_get collection "fields" (VList []);
  len ← py_len fields;
  mret (VDict [("name", n); ("document_count", VStr "unknown");
               ("fields", VInt len)]).

(** The entry the [try] block appends. *)
Definition counted_entry (collection doc_count : value) : result value :=
  n ← getitem collection "name";
  fields ← dict_get collection "fields" (VList []);
  len ← py_len fields;
  mret (VDict [("name", n); ("document_count", doc_count);
               ("fields", VInt len)]).

(** One turn of [for collection in collections]: from the locals
    [total_docs] and [collection_stats] before the turn to the locals
    after it.  The [try] block is cut at [total_docs += doc_count]: the
    bare [except:] sees the old total when the block fails up to that
    statement, and the new total when it fails after it. *)
Definition stats_body (collection total_docs : value)
    (collection_stats : list value) : M World (value * list value) :=
  counted ←
    try_except
      (n ← lift (getitem collection "name");
       search_result ← client (documents_search n count_params);
       doc_count ← lift (getitem search_result "found");
       total ← lift (py_add total_docs doc_count);
       mret (Some (doc_count, total)))
      (fun _ => mret None);
  match counted with
  | None =>
      entry ← lift (unknown_entry collection);
      mret (total_docs, (collection_stats ++ [entry])%list)
  | Some (doc_count, total) =>
      try_except
        (entry ← lift (counted_entry collection doc_count);
         mret (total, (collection_stats ++ [entry])%list))
        (fun _ =>
           entry ← lift (unknown_entry collection);
           mret (total, (collection_stats ++ [entry])%list))
  end.

Fixpoint stats_loop (collections : list value) (total_docs : value)
    (collection_stats : list value) : M World (value * list value) :=
  match collections with
  | [] => mret (total_docs, collection_stats)
  | collection :: rest =>
      r ← stats_body collection total_docs collection_stats;
      stats_loop rest (fst r) (snd r)
  end.

Definition get_typesense_stats : handler :=
  try_http
    (collections ← client collections_retrieve;
     items ← lift (py_iter collections);
     r ← stats_loop items (VInt 0) [];
     n ← lift (py_len collections);
     mret (VDict [("total_collections", VInt n);
                  ("total_documents", fst r);
                  ("collections", VList (snd r))]))
    (fun e => HTTPException 400
                ("Failed to get Typesense stats: " +:+ exc_str e)).

(** [[count['value'] for count in facet['counts']]]. *)
Definition facet_values (facet : value) : result (list value) :=
  counts ← getitem facet "counts";
  items ← py_iter counts;
  result_map (fun count => getitem count "value") items.

(** [for facet in ...: if facet['field_name'] == 'category': categories = ...],
    from the value of the local [categories] before the loop to its
    value after it. *)
Fixpoint facet_loop (facets : list value) (categories : list value)
    : result (list value) :=
  match facets with
  | [] => Ok categories
  | facet :: rest =>
      field_name ← getitem facet "field_name";
      if str_eq field_name "category" then
        values ← facet_values facet;
        facet_loop rest values
      else facet_loop rest categories
  end.

(** The body of [get_categories] after the search. *)
Definition categories_of (results : value) : result (list value) :=
  let categories : list value := [] in
  has ← py_contains "facet_counts" results;
  if (has : bool) then
    facet_counts ← getitem results "facet_counts";
    facets ← py_iter facet_counts;
    facet_loop facets categories
  else Ok categories.

Definition facet_params : gmap string value :=
  {[ "q" := VStr "*"; "facet_by" := VStr "category" ]}.

Definition get_categories : handler :=
  try_http
    (let search_params := facet_params in
     results ← client (documents_search COLLECTION_NAME search_params);
     categories ← lift (categories_of results);
     mret (VDict [("categories", VList categories)]))
    (fun e => HTTPException 400 ("Failed to get categories: " +:+ exc_str e)).

Definition get_recommendations (product_id : string) (limit : Z) : handler :=
  try_http
    (source_product ← client (document_retrieve COLLECTION_NAME product_id);
     source_tags ← lift (getitem source_product "tags");
     q ← lift (str_join " " source_tags);
     let search_params : gmap string value :=
       {[ "q" := VStr q;
          "query_by" := VStr "tags,category,name";
          "filter_by" := VStr ("id:!=" +:+ product_id);
          "per_page" := VInt limit;
          "sort_by" := VStr "rating:desc" ]} in
     results ← client (documents_search COLLECTION_NAME search_params);
     hits ← lift (getitem results "hits");
     mret (VDict [("source_product", source_product);
                  ("recommendations", hits)]))
    (fun e => HTTPException 400
                ("Failed to get recommendations: " +:+ exc_str e)).

(** *** The routes *)

Definition handle (r : request) : handler :=
  match r with
  | GET_root => root
  | GET_health => health_check
  | GET_products limit offset => get_all_products limit offset
  | POST_products product => add_product product
  | GET_product product_id => get_product product_id
  | DELETE_product product_id => delete_product product_id
  | POST_search search_query => search_products search_query
  | GET_admin_collections => get_all_collections
  | GET_admin_collection collection_name => get_collection_info collection_name
  | GET_admin_collection_stats collection_name =>
      get_collection_stats collection_name
  | GET_admin_typesense_stats => get_typesense_stats
  | GET_categories => get_categories
  | GET_recommendations product_id limit => get_recommendations product_id limit
  end.

End Program.

(** ** A scripted engine

    A world is the list of the outcomes still to come; every call takes
    the next one, and the connection is refused when none is left.  Any
    finite sequence of outcomes is a world of this engine. *)
Definition refused : exception :=
  Exception "ConnectionError" "connection refused".

Definition scripted (c : call) (w : list (result value))
    : result value * list (result value) :=
  match w with
  | [] => (Raise refused, [])
  | r :: w' => (r, w')
  end.

(** Python's [repr] on the floats of the runs below. *)
Definition sample_repr (f : float) : string :=
  if PrimFloat.eqb f 3 then "3.0"
  else if PrimFloat.eqb f 4.5 then "4.5"
  else if PrimFloat.eqb f 100 then "100.0"
  else if PrimFloat.eqb f 999.99 then "999.99"
  else "?".

Definition not_found : exception :=
  Exception "ObjectNotFound" "[Errno 404] Not Found".

Definition empty_page : value := VDict [("found", VInt 0); ("hits", VList [])].

(** A query whose category is supplied and empty. *)
Definition empty_category_query : SearchQuery :=
  {| query := "phone"; category := Some ""; min_price := None;
     max_price := None |}.

(** A query with the three filters. *)
Definition full_query : SearchQuery :=
  {| query := "phone"; category := Some "Electronics";
     min_price := Some 100%float; max_price := Some 999.99%float |}.

(** A world where the engine is reached at the second attempt, has no
    products collection to delete, and accepts the creation and the
    import. *)
Definition second_attempt_world : list (result value) :=
  [Raise refused; Ok (VList []); Raise not_found;
   Ok COLLECTION_SCHEMA; Ok (VList [])].

(** A search result with the facet of the category. *)
Definition facet_count (v : string) (n : Z) : value :=
  VDict [("count", VInt n); ("highlighted", VStr v); ("value", VStr v)].

Definition category_facet : value :=
  VDict [("counts", VList [facet_count "Electronics" 2;
                           facet_count "Computers" 2;
                           facet_count "Audio" 1]);
         ("field_name", VStr "category")].

Definition facet_result : list (string * value) :=
  [("facet_counts", VList [category_facet]); ("found", VInt 5);
   ("hits", VList [])].

(** A listing of two collections; the search of the second one fails. *)
Definition products_collection : value :=
  VDict [("name", VStr "products");
         ("fields", VList [VStr "id"; VStr "name"; VStr "price"])].

Definition orders_collection : value := VDict [("name", VStr "orders")].

Definition stats_world : list (result value) :=
  [Ok (VList [products_collection; orders_collection]);
   Ok (VDict [("found", VInt 5)]);
   Raise refused].

(** ** Describing a run of the bootstrap *)

(** What matters of the connection phase: an attempt that failed, one
    that succeeded, a sleep with its duration. *)
Inductive step : Type :=
| Failed
| Succeeded
| Slept (secs : number).

Definition step_of (ev : event) : option step :=
  match ev with
  | ECall collections_retrieve (Raise _) => Some Failed
  | ECall collections_retrieve (Ok _) => Some Succeeded
  | ESleep d => Some (Slept d)
  | _ => None
  end.

Definition steps_of (t : list event) : list step := omap step_of t.

(** The connection attempts of a trace, each with its outcome. *)
Definition attempts_of (t : list event) : list (result value) :=
  omap (fun ev => match ev with
                  | ECall collections_retrieve r => Some r
                  | _ => None
                  end) t.

(** An attempt that fails, then a sleep, for each duration. *)
Definition retries (delays : list number) : list step :=
  flat_map (fun d => [Failed; Slept d]) delays.

(** [n] durations from [d], each one 1.5 times the one before. *)
Fixpoint delays_from (d : number) (n : nat) : list number :=
  match n with
  | O => []
  | S n' => d :: delays_from (number_mul_float d 1.5%float) n'
  end.

(** The nine durations from 2. *)
Definition backoff_delays : list number :=
  [NInt 2; NFloat 3; NFloat 4.5; NFloat 6.75; NFloat 10.125;
   NFloat 15.1875; NFloat 22.78125; NFloat 34.171875; NFloat 51.2578125].

(** How many outcomes fail before the first that does not. *)
Fixpoint leading_failures (outcomes : list (result value)) : nat :=
  match outcomes with
  | Raise _ :: rest => S (leading_failures rest)
  | _ => O
  end.

(** The way the loop over [n] attempts ends when the first [k] fail. *)
Definition loop_end (n k : nat) : control :=
  match n with
  | O => Continue
  | S _ => if (k <? n)%nat then Break else Return
  end.

(** The text of the last line the loop prints when it gives up. *)
Definition gave_up (e : exception) : string :=
  "Failed to connect to Typesense after " +:+ pretty max_retries
  +:+ " attempts: " +:+ exc_str e.

(** The messages of the second phase. *)
Definition setup_completed : string := "Typesense setup completed successfully!".

Definition setup_error (e : exception) : string :=
  "Error setting up Typesense: " +:+ exc_str e.

Definition last_step (n k : nat) : list step :=
  match n with
  | O => []
  | S _ => [if (k <? n)%nat then Succeeded else Failed]
  end.

Section Outcomes.
Context {World : Type}.
Variable engine : call -> World -> result value * World.

(** The outcomes of [n] calls of [collections.retrieve()] in a row, from
    the world [w], and the world after them. *)
Fixpoint retrieve_outcomes (n : nat) (w : World) : list (result value) :=
  match n with
  | O => []
  | S n' =>
      let '(r, w') := engine collections_retrieve w in
      r :: retrieve_outcomes n' w'
  end.

Fixpoint world_after (n : nat) (w : World) : World :=
  match n with
  | O => w
  | S n' => world_after n' (snd (engine collections_retrieve w))
  end.

(** The outcomes of the counting searches of the collections named
    [names], one after the other from the world [w]. *)
Fixpoint search_outcomes (names : list value) (w : World)
    : list (result value) :=
  match names with
  | [] => []
  | n :: names' =>
      let '(r, w') := engine (documents_search n count_params) w in
      r :: search_outcomes names' w'
  end.

End Outcomes.

(** ** Describing the filter of POST /search/ *)

(** The clause of an optional filter: none when the filter is absent. *)
Definition clause_of {A} (render : A -> string) (o : option A) : list string :=
  match o with
  | Some a => [render a]
  | None => []
  end.

(** The spec's words: one clause for each optional filter that is
    supplied, in the order category, min_price, max_price. *)
Definition supplied_clauses (float_repr : float -> string)
    (q : SearchQuery) : list string :=
  (clause_of (fun c => "category:=" +:+ c) (category q)
   ++ clause_of (fun p => "price:>=" +:+ float_repr p) (min_price q)
   ++ clause_of (fun p => "price:<=" +:+ float_repr p) (max_price q))%list.

(** A category filters only when it is a string that is not empty. *)
Definition effective_category (q : SearchQuery) : option string :=
  match category q with
  | Some c => if String.eqb c "" then None else Some c
  | None => None
  end.

(** The amended reading: the same clauses, the category counting only
    when it is effective. *)
Definition effective_clauses (float_repr : float -> string)
    (q : SearchQuery) : list string :=
  (clause_of (fun c => "category:=" +:+ c) (effective_category q)
   ++ clause_of (fun p => "price:>=" +:+ float_repr p) (min_price q)
   ++ clause_of (fun p => "price:<=" +:+ float_repr p) (max_price q))%list.

(** How many of the three filters count. *)
Definition count_some {A} (o : option A) : nat :=
  match o with Some _ => 1 | None => 0 end.

Definition effective_filters (q : SearchQuery) : nat :=
  (count_some (effective_category q) + count_some (min_price q)
   + count_some (max_price q))%nat.

(** The [filter_by] parameter for a list of clauses: absent for no
    clause, else the clauses joined by the AND connective. *)
Definition filter_by_of (clauses : list string) : option value :=
  match clauses with
  | [] => None
  | _ :: _ => Some (VStr (String.concat " && " clauses))
  end.

(** ** Describing the errors of the routes *)

(** The status and the prefix of the detail of the [HTTPException] each
    route raises; GET / and GET /health raise none. *)
Definition error_status (r : request) : Z :=
  match r with
  | GET_product _ | DELETE_product _ | GET_admin_collection _ => 404
  | _ => 400
  end.

Definition error_prefix (r : request) : string :=
  match r with
  | GET_root | GET_health => ""
  | GET_products _ _ => "Failed to get products: "
  | POST_products _ => "Failed to add product: "
  | GET_product _ => "Product not found: "
  | DELETE_product _ => "Failed to delete product: "
  | POST_search _ => "Search failed: "
  | GET_admin_collections => "Failed to get collections: "
  | GET_admin_collection _ => "Collection not found: "
  | GET_admin_collection_stats _ => "Failed to get collection stats: "
  | GET_admin_typesense_stats => "Failed to get Typesense stats: "
  | GET_categories => "Failed to get categories: "
  | GET_recommendations _ _ => "Failed to get recommendations: "
  end.

(** The failures of client calls that a route absorbs instead of raising:
    all of them in GET /health, those of the per-collection searches in
    GET /admin/typesense/stats. *)
Definition absorbed (r : request) (c : call) : Prop :=
  match r with
  | GET_health => True
  | GET_admin_typesense_stats => c <> collections_retrieve
  | _ => False
  end.

(** A computation is strict on the calls [P] when a failed call among the
    events it adds, if [P] holds of it, is what the computation raises. *)
Definition strict {World A} (P : call -> Prop) (m : M World A) : Prop :=
  forall s, exists t : list event,
    trace (snd (m s)) = (trace s ++ t)%list
    /\ forall c e, In (ECall c (Raise e)) t -> P c -> fst (m s) = Raise e.

(** An event that is a search. *)
Definition is_search (ev : event) : Prop :=
  exists n p r, ev = ECall (documents_search n p) r.

(** What a turn of the loop of [get_typesense_stats] gives for the
    outcome [r] of its search. *)
Definition turn_result (collection total_docs : value)
    (collection_stats : list value) (r : result value)
    : result (value * list value) :=
  match (search_result ← r;
         doc_count ← getitem search_result "found";
         total ← py_add total_docs doc_count;
         mret (doc_count, total)) with
  | Raise _ =>
      entry ← unknown_entry collection;
      mret (total_docs, (collection_stats ++ [entry])%list)
  | Ok (doc_count, total) =>
      match counted_entry collection doc_count with
      | Ok entry => Ok (total, (collection_stats ++ [entry])%list)
      | Raise _ =>
          entry ← unknown_entry collection;
          mret (total, (collection_stats ++ [entry])%list)
      end
  end.

(** ** Describing what the engine returns *)

(** [facet] is a facet on the field [field] whose counts carry the values
    [values], in this order. *)
Definition facet_of (field : value) (values : list value) (facet : value)
    : Prop :=
  exists counts : list value,
    getitem facet "field_name" = Ok field
    /\ getitem facet "counts" = Ok (VList counts)
    /\ Forall2 (fun count v => getitem count "value" = Ok v) counts values.

Definition wellformed_facet (facet : value) : Prop :=
  exists field values, facet_of field values facet.

(** A facet on another field than the category. *)
Definition other_facet (facet : value) : Prop :=
  exists field, getitem facet "field_name" = Ok field
                /\ field <> VStr "category".

(** [collection] is an entry of the listing of the collections with the
    name [n] and [nfields] fields (none when the key is absent). *)
Definition collection_info (n : value) (nfields : Z) (collection : value)
    : Prop :=
  getitem collection "name" = Ok n
  /\ exists fields, dict_get collection "fields" (VList []) = Ok fields
                    /\ py_len fields = Ok nfields.

(** What the count of a collection turns out to be. *)
Inductive count : Type :=
| Counted (n : Z)
| Unknown.

(** The outcome [r] of a counting search: a result that found [n]
    documents, or a failure. *)
Definition outcome_of (r : result value) (o : count) : Prop :=
  match o with
  | Counted n => exists sr, r = Ok sr /\ getitem sr "found" = Ok (VInt n)
  | Unknown => is_raise r = true
  end.

Definition stats_entry (info : value * Z) (o : count) : value :=
  VDict [("name", fst info);
         ("document_count",
          match o with Counted n => VInt n | Unknown => VStr "unknown" end);
         ("fields", VInt (snd info))].

(** The sum of the counts that are known. *)
Fixpoint counted_total (os : list count) : Z :=
  match os with
  | [] => 0
  | Counted n :: os' => n + counted_total os'
  | Unknown :: os' => counted_total os'
  end.

(** ** Properties *)

Section Properties.
Context {World : Type}.
Variable engine : call -> World -> result value * World.
Variable float_repr : float -> string.

(** *** Pagination of GET /products/ *)

Lemma floordiv_nonzero (a b : Z) : b <> 0 -> floordiv a b = Ok (a / b).
Proof.
  intros Hb. unfold floordiv.
  destruct (Z.eqb_spec b 0) as [E | _]; [contradiction | reflexivity].
Qed.

(** The search that [get_all_products] makes when [limit] is not zero,
    and the only event of the request. *)
Lemma get_all_products_trace (limit offset : Z) (s : state World) :
  limit <> 0 ->
  let c := documents_search COLLECTION_NAME
             {[ "q" := VStr "*"; "per_page" := VInt limit;
                "page" := VInt (offset / limit + 1) ]} in
  trace (snd (get_all_products engine limit offset s))
  = (trace s ++ [ECall c (fst (engine c (world s)))])%list.
Proof.
  intros Hl c. unfold get_all_products, try_http.
  rewrite (floordiv_nonzero _ _ Hl). unfold_M. unfold client.
  fold c. destruct (engine c (world s)) as [r w'].
  cbn [fst]. destruct r as [results | e]; [| reflexivity].
  destruct (getitem results "found"); [| reflexivity].
  destruct (params_getitem _ "page"); [| reflexivity].
  destruct (getitem results "hits") as [hits |]; [| reflexivity].
  destruct (py_iter hits) as [items |]; [| reflexivity].
  destruct (result_map _ items); reflexivity.
Qed.


(** C4: for every [limit > 0] and [offset >= 0], GET /products/ makes one
    client call, a search of the products collection whose parameters
    have [page = offset // limit + 1] and [per_page = limit]. *)
Theorem get_all_products_page (limit offset : Z) (s : state World) :
  0 < limit -> 0 <= offset ->
  exists (params : gmap string value) (r : result value),
    trace (snd (get_all_products engine limit offset s))
    = (trace s ++ [ECall (documents_search COLLECTION_NAME params) r])%list
    /\ params !! "page" = Some (VInt (offset / limit + 1))
    /\ params !! "per_page" = Some (VInt limit).
Proof.
  intros Hl _. eexists _, _. split.
  - apply get_all_products_trace. lia.
  - split; reflexivity.
Qed.

(** C10: with [limit = 0] the division raises inside the [try] before the
    client is called: the answer is the HTTP error 400 made from the
    [ZeroDivisionError], and neither the world nor the trace has changed. *)
Theorem get_all_products_limit_zero (offset : Z) (s : state World) :
  get_all_products engine 0 offset s
  = (HTTPException 400
       ("Failed to get products: " +:+ exc_str ZeroDivisionError), s).
Proof.
  unfold get_all_products, try_http. unfold_M.
  unfold floordiv. rewrite Z.eqb_refl. reflexivity.
Qed.

(** *** The bootstrap: the connection loop *)

Lemma steps_of_app (t1 t2 : list event) :
  steps_of (t1 ++ t2) = (steps_of t1 ++ steps_of t2)%list.
Proof. apply omap_app. Qed.

Lemma attempts_of_app (t1 t2 : list event) :
  attempts_of (t1 ++ t2) = (attempts_of t1 ++ attempts_of t2)%list.
Proof. apply omap_app. Qed.

Lemma calls_of_app (t1 t2 : list event) :
  calls_of (t1 ++ t2) = (calls_of t1 ++ calls_of t2)%list.
Proof. apply omap_app. Qed.

Lemma sleeps_of_app (t1 t2 : list event) :
  sleeps_of (t1 ++ t2) = (sleeps_of t1 ++ sleeps_of t2)%list.
Proof. apply omap_app. Qed.

(** One turn of the loop, by the outcome of its attempt. *)
Lemma for_attempts_cons (attempt : Z) (rest : list Z) (d : number)
    (s : state World) :
  for_attempts engine float_repr (attempt :: rest) d s
  = match engine collections_retrieve (world s) with
    | (Ok v, w') =>
        (Ok Break,
         State w' (trace s ++
           [ECall collections_retrieve (Ok v);
            EPrint ("Connected to Typesense on attempt "
                    +:+ pretty (attempt + 1))]))
    | (Raise e, w') =>
        if (attempt <? max_retries - 1)%Z then
          for_attempts engine float_repr rest
            (number_mul_float d 1.5%float)
            (State w' (trace s ++
               [ECall collections_retrieve (Raise e);
                EPrint ("Attempt " +:+ pretty (attempt + 1) +:+ " failed: "
                        +:+ exc_str e +:+ ". Retrying in "
                        +:+ number_str float_repr d +:+ " seconds...");
                ESleep d]))
        else
          (Ok Return,
           State w' (trace s ++
             [ECall collections_retrieve (Raise e);
              EPrint ("Failed to connect to Typesense after "
                      +:+ pretty max_retries +:+ " attempts: "
                      +:+ exc_str e)]))
    end.
Proof.
  cbn [for_attempts]. unfold attempt_body. unfold_M.
  unfold client, print, time_sleep.
  destruct (engine collections_retrieve (world s)) as [[v | e] w'].
  - cbn. rewrite <- app_assoc. reflexivity.
  - destruct (attempt <? max_retries - 1)%Z; cbn;
      rewrite <- !app_assoc; reflexivity.
Qed.

(** The loop over the last [n] of the ten attempts, from any state: how
    it ends, the world it leaves, and the events it adds, all by the
    number [k] of attempts that fail before one succeeds. *)
Lemma for_attempts_run (n : nat) :
  forall (i : nat) (d : number) (s : state World),
    (i + n = 10)%nat ->
    let outs := retrieve_outcomes engine n (world s) in
    let k := leading_failures outs in
    exists t : list event,
      for_attempts engine float_repr (map Z.of_nat (seq i n)) d s
      = (Ok (loop_end n k),
         State (world_after engine (min (S k) n) (world s)) (trace s ++ t))
      /\ steps_of t
         = (retries (delays_from d (min k (n - 1))) ++ last_step n k)%list
      /\ attempts_of t = take (min (S k) n) outs
      /\ calls_of t = replicate (min (S k) n) collections_retrieve
      /\ ((n <= k)%nat -> n <> O ->
          exists e, last outs = Some (Raise e)
                    /\ last t = Some (EPrint (gave_up e))).
Proof.
  induction n as [| n IH]; intros i d s Hi; cbn zeta.
  - exists []. cbn. rewrite app_nil_r. destruct s. repeat split; try reflexivity.
    intros _ H. contradiction.
  - cbn [seq map]. rewrite for_attempts_cons.
    cbn [retrieve_outcomes world_after].
    destruct (engine collections_retrieve (world s)) as [[v | e] w'] eqn:E.
    + cbn [leading_failures Nat.min world_after]. rewrite E. cbn [snd].
      eexists. split; [reflexivity |].
      repeat split; try reflexivity.
      intros H. lia.
    + cbn [leading_failures]. destruct n as [| n].
      * assert (i = 9%nat) as -> by lia.
        cbn [Nat.min world_after]. rewrite E.
        eexists. split; [reflexivity |]. repeat split; try reflexivity.
        intros _ _. exists e. split; reflexivity.
      * assert ((Z.of_nat i <? max_retries - 1)%Z = true) as ->.
        { apply Z.ltb_lt. unfold max_retries. lia. }
        set (s1 := State w' _).
        destruct (IH (S i) (number_mul_float d 1.5%float) s1 ltac:(lia))
          as (t & Hrun & Hsteps & Hatt & Hcalls & Hlast).
        change (world s1) with w' in *.
        set (outs := retrieve_outcomes engine (S n) w') in *.
        set (k := leading_failures outs) in *.
        eexists (_ ++ t)%list. split.
        { rewrite Hrun. unfold s1. cbn [trace]. rewrite <- app_assoc.
          change (S (S k) `min` S (S n))%nat with (S (S k `min` S n)).
          cbn [world_after]. rewrite E. reflexivity. }
        rewrite steps_of_app, attempts_of_app, calls_of_app.
        rewrite Hsteps, Hatt, Hcalls.
        replace (S (S n) - 1)%nat with (S n) by lia.
        replace (S n - 1)%nat with n in * by lia.
        repeat split.
        intros Hk _. destruct (Hlast ltac:(lia) ltac:(lia)) as (e' & He' & Ht).
        exists e'. split.
        -- rewrite last_cons, He'. reflexivity.
        -- rewrite last_app, Ht. reflexivity.
Qed.

Lemma take_delays_from (m n : nat) (d : number) :
  (m <= n)%nat -> take m (delays_from d n) = delays_from d m.
Proof.
  revert n d. induction m as [| m IH]; intros n d Hmn; [reflexivity |].
  destruct n as [| n]; [lia |]. cbn [delays_from take].
  f_equal. apply IH. lia.
Qed.

Lemma backoff_delays_spec : delays_from (NInt 2) 9 = backoff_delays.
Proof. reflexivity. Qed.

Lemma length_retrieve_outcomes (n : nat) (w : World) :
  length (retrieve_outcomes engine n w) = n.
Proof.
  revert w. induction n as [| n IH]; intros w; [reflexivity |].
  cbn [retrieve_outcomes]. destruct (engine collections_retrieve w) as [r w'].
  cbn [length]. f_equal. apply IH.
Qed.

Lemma leading_failures_le (outs : list (result value)) :
  (leading_failures outs <= length outs)%nat.
Proof.
  induction outs as [| [v | e] outs IH]; cbn [leading_failures length]; lia.
Qed.

Lemma leading_failures_all (outs : list (result value)) :
  Forall (fun r => is_raise r = true) outs ->
  leading_failures outs = length outs.
Proof.
  induction 1 as [| [v | e] outs Hr _ IH]; cbn [leading_failures length];
    [reflexivity | discriminate Hr | f_equal; exact IH].
Qed.

Lemma sleeps_of_steps (t : list event) :
  sleeps_of t
  = omap (fun st => match st with Slept d => Some d | _ => None end)
         (steps_of t).
Proof.
  unfold sleeps_of, steps_of.
  induction t as [| ev t IH]; [reflexivity |].
  destruct ev as [[] [v | e] | d | l]; cbn; rewrite ?IH; reflexivity.
Qed.

Lemma sleeps_of_retries (ds : list number) (connected : bool) :
  omap (fun st => match st with Slept d => Some d | _ => None end)
       (retries ds ++ [if connected then Succeeded else Failed])%list
  = ds.
Proof.
  induction ds as [| d ds IH].
  - destruct connected; reflexivity.
  - cbn. f_equal. exact IH.
Qed.

(** The second phase from any state, by the outcomes of its calls. *)
Lemma create_and_populate_run (s : state World) :
  create_and_populate engine s
  = let '(r_del, w1) := engine (collection_delete COLLECTION_NAME) (world s) in
    let '(r_cre, w2) := engine (collections_create COLLECTION_SCHEMA) w1 in
    match r_cre with
    | Raise e =>
        (Ok tt,
         State w2 (trace s ++
           [ECall (collection_delete COLLECTION_NAME) r_del;
            ECall (collections_create COLLECTION_SCHEMA) (Raise e);
            EPrint (setup_error e)]))
    | Ok v =>
        let '(r_imp, w3) :=
          engine (documents_import COLLECTION_NAME sample_products) w2 in
        (Ok tt,
         State w3 (trace s ++
           [ECall (collection_delete COLLECTION_NAME) r_del;
            ECall (collections_create COLLECTION_SCHEMA) (Ok v);
            ECall (documents_import COLLECTION_NAME sample_products) r_imp;
            EPrint (match r_imp with
                    | Ok _ => setup_completed
                    | Raise e => setup_error e
                    end)]))
    end.
Proof.
  unfold create_and_populate. unfold_M. unfold client, print.
  destruct (engine (collection_delete COLLECTION_NAME) (world s))
    as [[v1 | e1] w1]; cbn [world trace];
    destruct (engine (collections_create COLLECTION_SCHEMA) w1)
      as [[v2 | e2] w2]; cbn [world trace];
    try destruct (engine (documents_import COLLECTION_NAME sample_products) w2)
      as [[v3 | e3] w3]; cbn [world trace];
    rewrite <- ?app_assoc; reflexivity.
Qed.

(** The whole bootstrap from a fresh trace: the loop, then the second
    phase unless the loop gave up. *)
Lemma setup_typesense_run (w : World) :
  let k := leading_failures (retrieve_outcomes engine 10 w) in
  exists t : list event,
    setup_typesense engine float_repr (State w [])
    = (if (k <? 10)%nat
       then create_and_populate engine (State (world_after engine (S k) w) t)
       else (Ok tt, State (world_after engine 10 w) t))
    /\ steps_of t
       = (retries (take (min k 9) backoff_delays)
          ++ [if (k <? 10)%nat then Succeeded else Failed])%list
    /\ attempts_of t = take (S k) (retrieve_outcomes engine 10 w)
    /\ calls_of t = replicate (min (S k) 10) collections_retrieve
    /\ ((10 <= k)%nat ->
        exists e, last (retrieve_outcomes engine 10 w) = Some (Raise e)
                  /\ last t = Some (EPrint (gave_up e))).
Proof.
  intros k.
  destruct (for_attempts_run 10 0 (NInt 2) (State w []) eq_refl)
    as (t & Hrun & Hsteps & Hatt & Hcalls & Hlast).
  cbn [world trace app] in Hrun, Hatt, Hlast. fold k in Hrun, Hsteps, Hatt, Hcalls, Hlast.
  assert (k <= 10)%nat as Hk.
  { unfold k. rewrite <- (length_retrieve_outcomes 10 w) at 2.
    apply leading_failures_le. }
  exists t. split; [| split; [| split; [| split]]].
  - unfold setup_typesense. unfold_M.
    change (range max_retries) with (map Z.of_nat (seq 0 10)).
    rewrite Hrun. unfold loop_end.
    destruct (Nat.ltb_spec k 10) as [Hlt | Hge].
    + replace (S k `min` 10)%nat with (S k) by lia. reflexivity.
    + replace (S k `min` 10)%nat with 10%nat by lia. reflexivity.
  - rewrite Hsteps. change (10 - 1)%nat with 9%nat.
    rewrite <- backoff_delays_spec, take_delays_from by lia. reflexivity.
  - rewrite Hatt.
    destruct (Nat.ltb_spec k 10) as [Hlt | Hge].
    + replace (S k `min` 10)%nat with (S k) by lia. reflexivity.
    + replace (S k `min` 10)%nat with 10%nat by lia.
      rewrite !take_ge; [reflexivity | |];
        rewrite length_retrieve_outcomes; lia.
  - exact Hcalls.
  - intros H. apply Hlast; lia.
Qed.

(** The second phase adds no attempt and no sleep. *)
Lemma create_and_populate_quiet (s : state World) :
  exists extra : list event,
    create_and_populate engine s
    = (Ok tt, State (world (snd (create_and_populate engine s)))
                    (trace s ++ extra))
    /\ steps_of extra = [] /\ attempts_of extra = [].
Proof.
  rewrite create_and_populate_run.
  destruct (engine (collection_delete COLLECTION_NAME) (world s))
    as [r_del w1].
  destruct (engine (collections_create COLLECTION_SCHEMA) w1)
    as [[v | e] w2].
  - destruct (engine (documents_import COLLECTION_NAME sample_products) w2)
      as [r_imp w3].
    eexists. split; [reflexivity |]. split; reflexivity.
  - eexists. split; [reflexivity |]. split; reflexivity.
Qed.

(** C3: whatever the outcomes of the reachability calls, with [k] the
    number of attempts that fail before one succeeds (10 if none does):
    the bootstrap is [min k 9] times a failed attempt followed by a sleep,
    then one last attempt with no sleep after it; the durations are the
    first [min k 9] of 2, 3, 4.5, 6.75, ...; there are at most 10
    attempts. *)
Theorem bootstrap_retry_schedule (w : World) :
  let t := trace (snd (setup_typesense engine float_repr (State w []))) in
  let k := leading_failures (retrieve_outcomes engine 10 w) in
  steps_of t
  = (retries (take (min k 9) backoff_delays)
     ++ [if (k <? 10)%nat then Succeeded else Failed])%list
  /\ sleeps_of t = take (min k 9) backoff_delays
  /\ attempts_of t = take (S k) (retrieve_outcomes engine 10 w)
  /\ (length (attempts_of t) <= 10)%nat.
Proof.
  intros t k.
  destruct (setup_typesense_run w) as (t1 & Hrun & Hsteps & Hatt & _ & _).
  fold k in Hrun, Hsteps, Hatt.
  assert (steps_of t = steps_of t1 /\ attempts_of t = attempts_of t1)
    as [Es Ea].
  { unfold t. rewrite Hrun. destruct (k <? 10)%nat; [| split; reflexivity].
    destruct (create_and_populate_quiet (State (world_after engine (S k) w) t1))
      as (extra & -> & Hs & Ha).
    cbn [snd trace]. rewrite steps_of_app, attempts_of_app, Hs, Ha, !app_nil_r.
    split; reflexivity. }
  split; [| split; [| split]].
  - rewrite Es. exact Hsteps.
  - rewrite sleeps_of_steps, Es, Hsteps. apply sleeps_of_retries.
  - rewrite Ea. exact Hatt.
  - rewrite Ea, Hatt, length_take, length_retrieve_outcomes. lia.
Qed.

(** C6: when one of the ten attempts succeeds, the bootstrap goes on with
    the deletion of the products collection, whose outcome is ignored,
    then the creation from the schema, then, when the creation succeeded,
    the import of the sample records; a failure of the creation or of the
    import is printed and the function returns normally all the same. *)
Theorem bootstrap_create_populate (w w1 w2 w3 : World)
    (r_del r_cre r_imp : result value) :
  let k := leading_failures (retrieve_outcomes engine 10 w) in
  (k < 10)%nat ->
  engine (collection_delete COLLECTION_NAME) (world_after engine (S k) w)
  = (r_del, w1) ->
  engine (collections_create COLLECTION_SCHEMA) w1 = (r_cre, w2) ->
  engine (documents_import COLLECTION_NAME sample_products) w2 = (r_imp, w3) ->
  exists t1 : list event,
    calls_of t1 = replicate (S k) collections_retrieve
    /\ setup_typesense engine float_repr (State w [])
       = (Ok tt,
          State (if is_raise r_cre then w2 else w3)
            (t1 ++ [ECall (collection_delete COLLECTION_NAME) r_del;
                    ECall (collections_create COLLECTION_SCHEMA) r_cre]
                ++ match r_cre with
                   | Raise e => [EPrint (setup_error e)]
                   | Ok _ =>
                       [ECall (documents_import COLLECTION_NAME sample_products)
                          r_imp;
                        EPrint (match r_imp with
                                | Raise e => setup_error e
                                | Ok _ => setup_completed
                                end)]
                   end)%list).
Proof.
  intros k Hk Hdel Hcre Himp.
  destruct (setup_typesense_run w) as (t1 & Hrun & _ & _ & Hcalls & _).
  fold k in Hrun, Hcalls.
  exists t1. split.
  - rewrite Hcalls. f_equal. lia.
  - rewrite Hrun. apply Nat.ltb_lt in Hk. rewrite Hk.
    rewrite create_and_populate_run. cbn [world trace].
    rewrite Hdel, Hcre. destruct r_cre as [v | e]; [| reflexivity].
    rewrite Himp. destruct r_imp; reflexivity.
Qed.

(** C7: when the ten attempts all fail, the bootstrap makes the ten
    reachability calls and no other call, its last line is the failure
    message with the text of the tenth error, and it returns normally. *)
Theorem bootstrap_all_attempts_fail (w : World) :
  Forall (fun r => is_raise r = true) (retrieve_outcomes engine 10 w) ->
  exists (t : list event) (e : exception),
    setup_typesense engine float_repr (State w [])
    = (Ok tt, State (world_after engine 10 w) t)
    /\ calls_of t = replicate 10 collections_retrieve
    /\ last (retrieve_outcomes engine 10 w) = Some (Raise e)
    /\ last t = Some (EPrint (gave_up e)).
Proof.
  intros Hall. apply leading_failures_all in Hall.
  rewrite length_retrieve_outcomes in Hall.
  destruct (setup_typesense_run w) as (t & Hrun & _ & _ & Hcalls & Hlast).
  rewrite Hall in Hrun, Hcalls, Hlast.
  destruct (Hlast ltac:(lia)) as (e & He & Ht).
  exists t, e. repeat split; assumption.
Qed.

(** *** DELETE /products/{id} *)

(** C5: when the delete call of the client raises, whatever the error,
    DELETE /products/{id} answers with the HTTP status 404. *)
Theorem delete_product_not_found (product_id : string) (s : state World)
    (e : exception) (w' : World) :
  engine (document_delete COLLECTION_NAME product_id) (world s) = (Raise e, w') ->
  fst (delete_product engine product_id s)
  = HTTPException 404 ("Failed to delete product: " +:+ exc_str e).
Proof.
  intros H. unfold delete_product, try_http. unfold_M. unfold client.
  rewrite H. reflexivity.
Qed.

(** *** The filter of POST /search/ *)

Lemma search_filters_effective (q : SearchQuery) :
  search_filters float_repr q = effective_clauses float_repr q.
Proof.
  unfold search_filters, effective_clauses, effective_category.
  destruct (category q) as [c |], (min_price q), (max_price q);
    try destruct (String.eqb c ""); reflexivity.
Qed.

Lemma length_effective_clauses (q : SearchQuery) :
  length (effective_clauses float_repr q) = effective_filters q.
Proof.
  unfold effective_clauses, effective_filters.
  destruct (effective_category q), (min_price q), (max_price q); reflexivity.
Qed.

Lemma search_params_filter_by (q : SearchQuery) :
  search_params_of float_repr q !! "filter_by"
  = filter_by_of (search_filters float_repr q).
Proof.
  unfold search_params_of. destruct (search_filters float_repr q) as [| c l].
  - reflexivity.
  - apply lookup_insert_eq.
Qed.

(** The search that [search_products] makes, the only event of the request. *)
Lemma search_products_trace (q : SearchQuery) (s : state World) :
  let c := documents_search COLLECTION_NAME (search_params_of float_repr q) in
  trace (snd (search_products engine float_repr q s))
  = (trace s ++ [ECall c (fst (engine c (world s)))])%list.
Proof.
  intros c. unfold search_products, try_http. unfold_M. unfold client.
  fold c. destruct (engine c (world s)) as [[results | e] w']; [| reflexivity].
  cbn [fst]. destruct (getitem results "found"); [| reflexivity].
  destruct (getitem results "hits"); reflexivity.
Qed.

(** C1 (amended): POST /search/ makes one search whose [filter_by]
    parameter is absent when no filter is effective and is otherwise the
    clauses of the effective filters joined by [" && "], one clause per
    effective filter, in the order category, min_price, max_price; a
    category is effective when it is a non-empty string, a price bound
    when it is supplied. *)
Theorem search_filter_expression (q : SearchQuery) (s : state World) :
  exists (params : gmap string value) (r : result value),
    trace (snd (search_products engine float_repr q s))
    = (trace s ++ [ECall (documents_search COLLECTION_NAME params) r])%list
    /\ params !! "filter_by" = filter_by_of (effective_clauses float_repr q)
    /\ length (effective_clauses float_repr q) = effective_filters q
    /\ (params !! "filter_by" = None <-> effective_filters q = O).
Proof.
  eexists _, _. split; [apply search_products_trace |].
  rewrite search_params_filter_by, search_filters_effective.
  split; [reflexivity |]. split; [apply length_effective_clauses |].
  rewrite <- length_effective_clauses.
  destruct (effective_clauses float_repr q); cbn; split; congruence.
Qed.

(** *** Failures of the client and HTTP errors *)

Section Strict.
Variable P : call -> Prop.

Lemma strict_ret {A} (a : A) : strict P (mret a : M World A).
Proof.
  intros s. exists []. split; [symmetry; apply app_nil_r |].
  intros c e [].
Qed.

Lemma strict_lift {A} (r : result A) : strict P (lift r : M World A).
Proof.
  intros s. exists []. split; [symmetry; apply app_nil_r |].
  intros c e [].
Qed.

Lemma strict_client (c : call) : strict P (client engine c).
Proof.
  intros s. unfold client.
  destruct (engine c (world s)) as [r w'].
  exists [ECall c r]. split; [reflexivity |].
  intros c' e [H | []] _. inversion H. reflexivity.
Qed.

Lemma strict_bind {A B} (m : M World A) (k : A -> M World B) :
  strict P m -> (forall a, strict P (k a)) -> strict P (m ≫= k).
Proof.
  intros Hm Hk s. destruct (Hm s) as (t1 & Ht1 & H1).
  unfold mbind, M_bind. destruct (m s) as [[a | e1] s1].
  - destruct (Hk a s1) as (t2 & Ht2 & H2).
    exists (t1 ++ t2)%list. split.
    + rewrite Ht2. cbn [snd] in Ht1. rewrite Ht1. symmetry. apply app_assoc.
    + intros c e Hin Hc. apply in_app_or in Hin. destruct Hin as [Hin | Hin].
      * specialize (H1 c e Hin Hc). discriminate H1.
      * exact (H2 c e Hin Hc).
  - exists t1. split; [exact Ht1 |].
    intros c e Hin Hc. specialize (H1 c e Hin Hc).
    cbn [fst] in H1 |- *. congruence.
Qed.

(** A computation whose calls are all outside [P] is strict on [P]. *)
Lemma strict_outside {A} (m : M World A) :
  (forall s, exists t : list event,
      trace (snd (m s)) = (trace s ++ t)%list
      /\ forall c r, In (ECall c r) t -> ~ P c) ->
  strict P m.
Proof.
  intros H s. destruct (H s) as (t & Ht & Hout).
  exists t. split; [exact Ht |].
  intros c e Hin Hc. destruct (Hout c (Raise e) Hin Hc).
Qed.

(** A handler that turns what its body raises into an [HTTPException]. *)
Lemma try_http_strict (body : M World value) (on_error : exception -> response)
    (s : state World) :
  strict P body ->
  exists t : list event,
    trace (snd (try_http body on_error s)) = (trace s ++ t)%list
    /\ forall c e, In (ECall c (Raise e)) t -> P c ->
                   fst (try_http body on_error s) = on_error e.
Proof.
  intros Hb. destruct (Hb s) as (t & Ht & H). unfold try_http.
  destruct (body s) as [[v | e0] s1]; exists t; (split; [exact Ht |]);
    intros c e Hin Hc; specialize (H c e Hin Hc); cbn [fst] in H |- *.
  - discriminate H.
  - congruence.
Qed.

End Strict.

(** One turn of the loop of [get_typesense_stats]: at most one call, the
    search of the collection. *)
Lemma stats_body_run (collection total_docs : value)
    (collection_stats : list value) (s : state World) :
  stats_body engine collection total_docs collection_stats s
  = match getitem collection "name" with
    | Raise _ =>
        (entry ← unknown_entry collection;
         mret (total_docs, (collection_stats ++ [entry])%list), s)
    | Ok n =>
        let '(r, w') := engine (documents_search n count_params) (world s) in
        (turn_result collection total_docs collection_stats r,
         State w' (trace s ++ [ECall (documents_search n count_params) r]))
    end.
Proof.
  unfold stats_body, turn_result. unfold_M. unfold client.
  destruct (getitem collection "name") as [n | e0].
  - destruct (engine (documents_search n count_params) (world s))
      as [[sr | e1] w'].
    + unfold mbind, result_bind, mret, result_ret.
      destruct (getitem sr "found") as [dc |];
        [destruct (py_add total_docs dc) as [total |] |];
        try destruct (counted_entry collection dc);
        destruct (unknown_entry collection); reflexivity.
    + unfold mbind, result_bind, mret, result_ret.
      destruct (unknown_entry collection); reflexivity.
  - unfold mbind, result_bind, mret, result_ret.
    destruct (unknown_entry collection); reflexivity.
Qed.

Lemma stats_loop_searches (collections : list value) :
  forall (total_docs : value) (collection_stats : list value)
         (s : state World),
  exists t : list event,
    trace (snd (stats_loop engine collections total_docs collection_stats s))
    = (trace s ++ t)%list
    /\ Forall is_search t.
Proof.
  induction collections as [| collection rest IH];
    intros total_docs collection_stats s.
  - exists []. split; [symmetry; apply app_nil_r | constructor].
  - cbn [stats_loop]. unfold mbind at 1. unfold M_bind.
    rewrite stats_body_run.
    destruct (getitem collection "name") as [n | e0].
    + destruct (engine (documents_search n count_params) (world s))
        as [r w'].
      destruct (turn_result collection total_docs collection_stats r)
        as [[total stats] | e1].
      * destruct (IH total stats
                    (State w' (trace s ++ [ECall (documents_search n count_params) r])))
          as (t & Ht & Hall).
        eexists (_ :: t). split.
        -- cbn [fst snd]. rewrite Ht. cbn [trace]. rewrite <- app_assoc.
           reflexivity.
        -- constructor; [| exact Hall]. eexists _, _, _. reflexivity.
      * eexists [_]. split; [reflexivity |].
        constructor; [| constructor]. eexists _, _, _. reflexivity.
    + destruct (_ : result (value * list value)) as [[total stats] | e1].
      * apply IH.
      * exists []. split; [symmetry; apply app_nil_r | constructor].
Qed.

Lemma stats_loop_strict (collections : list value) (total_docs : value)
    (collection_stats : list value) :
  strict (fun c => ~ absorbed GET_admin_typesense_stats c)
    (stats_loop engine collections total_docs collection_stats).
Proof.
  apply strict_outside. intros s.
  destruct (stats_loop_searches collections total_docs collection_stats s)
    as (t & Ht & Hall).
  exists t. split; [exact Ht |].
  intros c r Hin Hc. apply Hc. cbn. intros ->.
  rewrite Forall_forall in Hall.
  destruct (Hall _ (proj2 (list_elem_of_In _ _) Hin)) as (n & p & r' & H).
  discriminate H.
Qed.

(** Composes the lemmas on [strict] along the structure of a body. *)
Ltac strict_steps :=
  repeat first
    [ apply strict_ret
    | apply strict_lift
    | apply strict_client
    | apply stats_loop_strict
    | apply strict_bind; [| intros ?]
    | progress cbn zeta ].

(** Every route, from any state: a failed client call among the events of
    the request, unless the route absorbs it, is answered by the
    [HTTPException] of the route with the text of the error after the
    prefix. *)
Lemma handle_strict (r : request) (s : state World) :
  exists t : list event,
    trace (snd (handle engine float_repr r s)) = (trace s ++ t)%list
    /\ forall c e, In (ECall c (Raise e)) t -> ~ absorbed r c ->
         fst (handle engine float_repr r s)
         = HTTPException (error_status r) (error_prefix r +:+ exc_str e).
Proof.
  destruct r; cbn [handle error_status error_prefix].
  1: { exists []. split; [symmetry; apply app_nil_r |]. intros c e []. }
  1: { unfold health_check.
       destruct (try_http_strict (fun _ => True)
                   (collections ← client engine collections_retrieve;
                    n ← lift (py_len collections);
                    mret (VDict [("status", VStr "healthy");
                                 ("typesense", VBool true);
                                 ("collections", VInt n)]))
                   (fun e => Body (VDict [("status", VStr "degraded");
                                          ("typesense", VBool false);
                                          ("error", VStr (exc_str e))])) s)
         as (t & Ht & _); [strict_steps |].
       exists t. split; [exact Ht |]. intros c e _ H. destruct (H I). }
  all: match goal with
       | |- context [absorbed ?r _] =>
           apply (try_http_strict (fun c => ~ absorbed r c))
       end; strict_steps.
Qed.

(** C2 (amended): for every route and every failed client call among the
    events of a request, unless the route absorbs the failure (GET /health
    answers with a degraded body, GET /admin/typesense/stats reports the
    count of a collection whose search failed as unknown), the answer is
    an [HTTPException] whose status is 404 for GET /products/{id},
    DELETE /products/{id} and GET /admin/collection/{name} and 400 for the
    other routes, and whose detail is the prefix of the route followed by
    the text of the error. *)
Theorem engine_failure_to_http_error (r : request) (w : World)
    (c : call) (e : exception) :
  In (ECall c (Raise e))
     (trace (snd (handle engine float_repr r (State w [])))) ->
  ~ absorbed r c ->
  fst (handle engine float_repr r (State w []))
  = HTTPException (error_status r) (error_prefix r +:+ exc_str e)
  /\ (error_status r = 400 \/ error_status r = 404)
  /\ (error_status r = 404 <->
      exists x, r = GET_product x \/ r = DELETE_product x
                \/ r = GET_admin_collection x).
Proof.
  intros Hin Hc. destruct (handle_strict r (State w [])) as (t & Ht & H).
  cbn [trace app] in Ht. rewrite Ht in Hin. split; [| split].
  - exact (H c e Hin Hc).
  - destruct r; cbn; auto.
  - destruct r; cbn; split;
      try discriminate; try (intros _; eexists; eauto; fail);
      intros (x & [Hx | [Hx | Hx]]); discriminate Hx.
Qed.

(** *** GET /categories/ *)

Lemma result_map_values (counts values : list value) :
  Forall2 (fun count v => getitem count "value" = Ok v) counts values ->
  result_map (fun count => getitem count "value") counts = Ok values.
Proof.
  induction 1 as [| count v counts values Hv _ IH]; [reflexivity |].
  cbn [result_map]. rewrite Hv, IH. reflexivity.
Qed.

Lemma facet_values_of (field : value) (values : list value) (facet : value) :
  facet_of field values facet -> facet_values facet = Ok values.
Proof.
  intros (counts & _ & Hc & Hv). unfold facet_values.
  rewrite Hc. cbn. apply result_map_values. exact Hv.
Qed.

Lemma str_eq_other (field : value) (k : string) :
  field <> VStr k -> str_eq field k = false.
Proof.
  intros Hne. destruct field; try reflexivity. cbn.
  destruct (String.eqb_spec s k) as [-> | _]; [contradiction | reflexivity].
Qed.

Lemma facet_loop_others (facets categories : list value) :
  Forall other_facet facets -> facet_loop facets categories = Ok categories.
Proof.
  induction 1 as [| facet facets (field & Hf & Hne) _ IH]; [reflexivity |].
  cbn [facet_loop]. rewrite Hf. cbn.
  rewrite (str_eq_other _ _ Hne). exact IH.
Qed.

Lemma facet_loop_wellformed (facets : list value) :
  Forall wellformed_facet facets ->
  forall categories, exists categories',
    facet_loop facets categories = Ok categories'.
Proof.
  induction 1 as [| facet facets (field & values & Hf) _ IH];
    intros categories; [eexists; reflexivity |].
  cbn [facet_loop]. pose proof Hf as (counts & Hn & _). rewrite Hn. cbn.
  destruct (str_eq field "category").
  - rewrite (facet_values_of _ _ _ Hf). cbn. apply IH.
  - apply IH.
Qed.

Lemma facet_loop_app (before after categories : list value) :
  facet_loop (before ++ after) categories
  = (c ← facet_loop before categories; facet_loop after c).
Proof.
  revert categories. induction before as [| facet before IH];
    intros categories; [reflexivity |].
  cbn [app facet_loop]. unfold mbind, result_bind.
  destruct (getitem facet "field_name") as [field |]; [| reflexivity].
  destruct (str_eq field "category").
  - destruct (facet_values facet) as [values |]; [| reflexivity]. apply IH.
  - apply IH.
Qed.

(** The answer of [get_categories] from what [categories_of] gives on a
    result of the search. *)
Lemma get_categories_answer (s : state World) (results : value) (w' : World)
    (categories : list value) :
  engine (documents_search COLLECTION_NAME facet_params) (world s)
  = (Ok results, w') ->
  categories_of results = Ok categories ->
  fst (get_categories engine s) = Body (VDict [("categories", VList categories)]).
Proof.
  intros He Hc. unfold get_categories, try_http. unfold_M. unfold client.
  rewrite He, Hc. reflexivity.
Qed.

(** C8: when the search of GET /categories/ returns a result, the answer
    is the empty list when the result has no [facet_counts] field or no
    facet on the category, and the values of the counts of the category
    facet, in their order, when it has one. *)
Theorem get_categories_facet_values (s : state World)
    (d : list (string * value)) (w' : World) :
  engine (documents_search COLLECTION_NAME facet_params) (world s)
  = (Ok (VDict d), w') ->
  let answer (categories : list value) :=
    Body (VDict [("categories", VList categories)]) in
  (dict_lookup "facet_counts" d = None ->
   fst (get_categories engine s) = answer [])
  /\ (forall facets,
        dict_lookup "facet_counts" d = Some (VList facets) ->
        Forall other_facet facets ->
        fst (get_categories engine s) = answer [])
  /\ (forall before facet after values,
        dict_lookup "facet_counts" d = Some (VList (before ++ facet :: after)) ->
        Forall wellformed_facet before ->
        facet_of (VStr "category") values facet ->
        Forall other_facet after ->
        fst (get_categories engine s) = answer values).
Proof.
  intros He answer. split; [| split].
  - intros Hd. apply (get_categories_answer _ _ _ _ He).
    unfold categories_of. cbn. unfold dict_contains. rewrite Hd. reflexivity.
  - intros facets Hd Hall. apply (get_categories_answer _ _ _ _ He).
    unfold categories_of. cbn. unfold dict_contains. rewrite Hd. cbn.
    apply facet_loop_others. exact Hall.
  - intros before facet after values Hd Hb Hf Ha.
    apply (get_categories_answer _ _ _ _ He).
    unfold categories_of. cbn. unfold dict_contains. rewrite Hd. cbn.
    rewrite facet_loop_app.
    destruct (facet_loop_wellformed _ Hb []) as (c & ->). cbn.
    pose proof Hf as (counts & Hn & _). rewrite Hn. cbn.
    rewrite (facet_values_of _ _ _ Hf). cbn.
    apply facet_loop_others. exact Ha.
Qed.

(** *** GET /admin/typesense/stats *)

Lemma stats_loop_counts (collections : list value) (infos : list (value * Z)) :
  Forall2 (fun c i => collection_info (fst i) (snd i) c) collections infos ->
  forall (counts : list count) (acc : Z) (collection_stats : list value)
         (s : state World),
    Forall2 outcome_of (search_outcomes engine (map fst infos) (world s)) counts ->
    fst (stats_loop engine collections (VInt acc) collection_stats s)
    = Ok (VInt (acc + counted_total counts),
          (collection_stats ++ zip_with stats_entry infos counts)%list).
Proof.
  induction 1 as [| collection [n nfields] collections infos Hi _ IH];
    intros counts acc collection_stats s Hout.
  - inversion Hout; subst. cbn. rewrite Z.add_0_r, app_nil_r. reflexivity.
  - cbn [map fst search_outcomes] in Hout.
    destruct Hi as (Hn & fields & Hf & Hl). cbn [fst snd] in Hn, Hf, Hl.
    cbn [stats_loop]. unfold mbind at 1. unfold M_bind.
    rewrite stats_body_run, Hn.
    destruct (engine (documents_search n count_params) (world s)) as [r w1].
    inversion Hout as [| r' o outs counts' Ho Hrest]; subst.
    assert (turn_result collection (VInt acc) collection_stats r
            = Ok (VInt (acc + match o with Counted m => m | Unknown => 0 end),
                  (collection_stats ++ [stats_entry (n, nfields) o])%list))
      as ->.
    { unfold turn_result, counted_entry, unknown_entry, stats_entry.
      destruct o as [m |].
      - destruct Ho as (sr & -> & Hfound). cbn. rewrite Hfound. cbn.
        rewrite Hn. cbn. rewrite Hf. cbn. rewrite Hl. reflexivity.
      - destruct r as [sr | e]; [discriminate Ho |]. cbn.
        rewrite Hn. cbn. rewrite Hf. cbn. rewrite Hl. cbn.
        rewrite Z.add_0_r. reflexivity. }
    cbn [fst snd]. rewrite (IH counts'); [| exact Hrest].
    cbn [zip_with counted_total]. rewrite <- app_assoc. cbn [app].
    do 2 f_equal. f_equal. destruct o; lia.
Qed.

(** C9: on a listing of the collections and whatever the outcomes of the
    counting searches, GET /admin/typesense/stats answers with a body: a
    collection whose search raised has the document count ["unknown"],
    and the total is the sum of the counts of the other collections. *)
Theorem get_typesense_stats_unknown (s : state World)
    (collections : list value) (w1 : World)
    (infos : list (value * Z)) (counts : list count) :
  engine collections_retrieve (world s) = (Ok (VList collections), w1) ->
  Forall2 (fun c i => collection_info (fst i) (snd i) c) collections infos ->
  Forall2 outcome_of (search_outcomes engine (map fst infos) w1) counts ->
  fst (get_typesense_stats engine s)
  = Body (VDict [("total_collections", VInt (Z.of_nat (length collections)));
                 ("total_documents", VInt (counted_total counts));
                 ("collections", VList (zip_with stats_entry infos counts))]).
Proof.
  intros He Hi Ho. unfold get_typesense_stats, try_http. unfold_M.
  unfold client. rewrite He. cbn [py_iter py_len].
  pose proof (stats_loop_counts _ _ Hi counts 0 []
                (State w1 (trace s ++ [ECall collections_retrieve
                                         (Ok (VList collections))])) Ho) as H.
  destruct (stats_loop _ _ _ _ _) as [[[total stats] | e] s2];
    cbn [fst] in H; [| discriminate H].
  injection H as -> ->. reflexivity.
Qed.

End Properties.

(** ** Runs on the scripted engine *)

(** [limit = 10], [offset = 25]: the page asked for is 3. *)
Lemma get_all_products_page_witness :
  exists (params : gmap string value) (r : result value),
    trace (snd (get_all_products scripted 10 25 (State [Ok empty_page] [])))
    = [ECall (documents_search COLLECTION_NAME params) r]
    /\ params !! "page" = Some (VInt 3)
    /\ params !! "per_page" = Some (VInt 10).
Proof.
  exact (get_all_products_page scripted 10 25 (State [Ok empty_page] [])
           ltac:(lia) ltac:(lia)).
Defined.

Lemma delete_product_not_found_witness :
  fst (delete_product scripted "42" (State [Raise not_found] []))
  = HTTPException 404 "Failed to delete product: [Errno 404] Not Found".
Proof.
  exact (delete_product_not_found scripted "42" (State [Raise not_found] [])
           not_found [] eq_refl).
Defined.

(** The three filters give three clauses in their order. *)
Example search_full_query :
  search_params_of sample_repr full_query !! "filter_by"
  = Some (VStr "category:=Electronics && price:>=100.0 && price:<=999.99").
Proof. vm_compute. reflexivity. Qed.

(** C1 as stated fails on a category that is supplied and empty: one
    filter is supplied, the handler makes no clause for it and sets no
    [filter_by]. *)
Lemma search_empty_category_counterexample :
  category empty_category_query = Some ""
  /\ supplied_clauses sample_repr empty_category_query = ["category:="]
  /\ search_filters sample_repr empty_category_query = []
  /\ search_filters sample_repr empty_category_query
     <> supplied_clauses sample_repr empty_category_query
  /\ calls_of (trace (snd (search_products scripted sample_repr
                             empty_category_query (State [Ok empty_page] []))))
     = [documents_search COLLECTION_NAME
          {[ "q" := VStr "phone"; "query_by" := VStr "name,description,tags";
             "sort_by" := VStr "rating:desc,price:asc" ]}]
  /\ search_params_of sample_repr empty_category_query !! "filter_by" = None.
Proof.
  repeat split; try reflexivity. cbn. discriminate.
Qed.

Lemma engine_failure_to_http_error_witness :
  fst (handle scripted sample_repr (GET_product "42")
         (State [Raise not_found] []))
  = HTTPException 404 "Product not found: [Errno 404] Not Found".
Proof.
  apply (engine_failure_to_http_error scripted sample_repr (GET_product "42")
           [Raise not_found] (document_retrieve COLLECTION_NAME "42") not_found).
  - left. reflexivity.
  - intros [].
Defined.

(** C2 as stated fails: the detail of the error of GET /products/{id} is
    not the text of the error of the client but that text after a prefix,
    and GET /health answers a failure with a body, not with an error. *)
Lemma detail_not_verbatim_counterexample :
  let s := State [Raise not_found] [] in
  In (ECall (document_retrieve COLLECTION_NAME "42") (Raise not_found))
     (trace (snd (get_product scripted "42" s)))
  /\ fst (get_product scripted "42" s)
     = HTTPException 404 "Product not found: [Errno 404] Not Found"
  /\ (forall status,
        fst (get_product scripted "42" s)
        <> HTTPException status (exc_str not_found))
  /\ In (ECall collections_retrieve (Raise not_found))
        (trace (snd (health_check scripted s)))
  /\ fst (health_check scripted s)
     = Body (VDict [("status", VStr "degraded"); ("typesense", VBool false);
                    ("error", VStr "[Errno 404] Not Found")]).
Proof.
  cbn zeta. split; [left; reflexivity |]. split; [reflexivity |].
  split; [intros status H; cbn in H; discriminate H |].
  split; [left; reflexivity | reflexivity].
Qed.

(** The engine refuses every call: ten attempts, nine sleeps. *)
Example bootstrap_unreachable :
  sleeps_of (trace (snd (setup_typesense scripted sample_repr (State [] []))))
  = backoff_delays
  /\ length (attempts_of (trace (snd (setup_typesense scripted sample_repr
                                        (State [] []))))) = 10%nat.
Proof. split; reflexivity. Qed.

Lemma bootstrap_create_populate_witness :
  exists t1 : list event,
    calls_of t1 = [collections_retrieve; collections_retrieve]
    /\ setup_typesense scripted sample_repr (State second_attempt_world [])
       = (Ok tt,
          State []
            (t1 ++ [ECall (collection_delete COLLECTION_NAME) (Raise not_found);
                    ECall (collections_create COLLECTION_SCHEMA)
                      (Ok COLLECTION_SCHEMA);
                    ECall (documents_import COLLECTION_NAME sample_products)
                      (Ok (VList []));
                    EPrint setup_completed])%list).
Proof.
  exact (bootstrap_create_populate scripted sample_repr second_attempt_world
           [Ok COLLECTION_SCHEMA; Ok (VList [])] [Ok (VList [])] []
           (Raise not_found) (Ok COLLECTION_SCHEMA) (Ok (VList []))
           ltac:(vm_compute; lia) eq_refl eq_refl eq_refl).
Defined.

Lemma bootstrap_all_attempts_fail_witness :
  exists (t : list event) (e : exception),
    setup_typesense scripted sample_repr (State [] []) = (Ok tt, State [] t)
    /\ calls_of t = replicate 10 collections_retrieve
    /\ last (retrieve_outcomes scripted 10 []) = Some (Raise e)
    /\ last t = Some (EPrint (gave_up e)).
Proof.
  apply (bootstrap_all_attempts_fail scripted sample_repr []).
  repeat constructor.
Defined.

Lemma get_categories_facet_values_witness :
  fst (get_categories scripted (State [Ok (VDict facet_result)] []))
  = Body (VDict [("categories",
                  VList [VStr "Electronics"; VStr "Computers"; VStr "Audio"])]).
Proof.
  refine (proj2 (proj2 (get_categories_facet_values scripted
                          (State [Ok (VDict facet_result)] [])
                          facet_result [] eq_refl))
            [] category_facet []
            [VStr "Electronics"; VStr "Computers"; VStr "Audio"]
            eq_refl _ _ _).
  - constructor.
  - eexists. split; [reflexivity |]. split; [reflexivity |].
    repeat constructor.
  - constructor.
Defined.

Lemma get_typesense_stats_unknown_witness :
  fst (get_typesense_stats scripted (State stats_world []))
  = Body (VDict [("total_collections", VInt 2);
                 ("total_documents", VInt 5);
                 ("collections",
                  VList [VDict [("name", VStr "products");
                                ("document_count", VInt 5);
                                ("fields", VInt 3)];
                         VDict [("name", VStr "orders");
                                ("document_count", VStr "unknown");
                                ("fields", VInt 0)]])]).
Proof.
  refine (get_typesense_stats_unknown scripted (State stats_world [])
            [products_collection; orders_collection]
            [Ok (VDict [("found", VInt 5)]); Raise refused]
            [(VStr "products", 3); (VStr "orders", 0)]
            [Counted 5; Unknown] eq_refl _ _).
  - repeat constructor; eexists; split; reflexivity.
  - repeat constructor. eexists. split; reflexivity.
Defined.

(** ** Further properties of the handlers and of the bootstrap *)

(** The time the bootstrap sleeps in all, in seconds. *)
Definition total_sleep (t : list event) : float :=
  fold_left (fun acc d => PrimFloat.add acc (number_to_float d))
            (sleeps_of t) 0%float.

(** The bodies of GET /health. *)
Definition healthy (n : Z) : value :=
  VDict [("status", VStr "healthy"); ("typesense", VBool true);
         ("collections", VInt n)].

Definition degraded (e : exception) : value :=
  VDict [("status", VStr "degraded"); ("typesense", VBool false);
         ("error", VStr (exc_str e))].

(** The parameters of the search of GET /products/ for a page. *)
Definition page_params (limit page : Z) : gmap string value :=
  {[ "q" := VStr "*"; "per_page" := VInt limit; "page" := VInt page ]}.

(** The parameters of the search of GET /recommendations/{id}. *)
Definition recommendation_params (product_id : string) (limit : Z)
    (source_tags : list string) : gmap string value :=
  {[ "q" := VStr (String.concat " " source_tags);
     "query_by" := VStr "tags,category,name";
     "filter_by" := VStr ("id:!=" +:+ product_id);
     "per_page" := VInt limit;
     "sort_by" := VStr "rating:desc" ]}.

(** An event that is a call of the client. *)
Definition is_call (ev : event) : Prop := exists c r, ev = ECall c r.

(** A computation fails fast on the calls [P]: the events it adds are
    calls of the client, and a failed call among them, if [P] holds of it,
    is the last of them and is what the computation raises. *)
Definition fail_fast {World A} (P : call -> Prop) (m : M World A) : Prop :=
  forall s, exists t : list event,
    trace (snd (m s)) = (trace s ++ t)%list
    /\ Forall is_call t
    /\ forall c e, In (ECall c (Raise e)) t -> P c ->
         fst (m s) = Raise e /\ last t = Some (ECall c (Raise e)).

(** The lines a trace prints, in order. *)
Definition printed (t : list event) : list string :=
  omap (fun ev => match ev with EPrint l => Some l | _ => None end) t.

(** The line of the attempt that connects; attempts count from 1. *)
Definition connected_line (attempt : Z) : string :=
  "Connected to Typesense on attempt " +:+ pretty attempt.

Section Coverage.
Context {World : Type}.
Variable engine : call -> World -> result value * World.
Variable float_repr : float -> string.

(** *** GET /health *)

(** X1: GET /health never answers with an HTTP error.  It reports the
    engine as degraded, with the text of the error, when the listing of
    the collections raises and also when the listing has no length; else
    it reports the number of collections. *)
Theorem health_check_always_body (s : state World) :
  (forall status detail,
      fst (health_check engine s) <> HTTPException status detail)
  /\ fst (health_check engine s)
     = match engine collections_retrieve (world s) with
       | (Raise e, _) => Body (degraded e)
       | (Ok collections, _) =>
           match py_len collections with
           | Ok n => Body (healthy n)
           | Raise e => Body (degraded e)
           end
       end.
Proof.
  unfold health_check, try_http. unfold_M. unfold client.
  destruct (engine collections_retrieve (world s)) as [[collections | e] w'].
  - destruct (py_len collections); split; try reflexivity;
      intros status detail H; discriminate H.
  - split; [intros status detail H; discriminate H | reflexivity].
Qed.

(** *** The bootstrap *)

(** X2: the bootstrap never raises, whatever the engine does: it returns
    normally from every state. *)
Theorem setup_typesense_never_raises (s : state World) :
  fst (setup_typesense engine float_repr s) = Ok tt.
Proof.
  destruct (for_attempts_run engine float_repr 10 0 (NInt 2) s eq_refl)
    as (t & Hrun & _).
  unfold setup_typesense. unfold_M.
  change (range max_retries) with (map Z.of_nat (seq 0 10)).
  rewrite Hrun. unfold loop_end.
  destruct (_ <? 10)%nat; [| reflexivity].
  rewrite create_and_populate_run. cbn [world].
  destruct (engine (collection_delete COLLECTION_NAME) _) as [r_del w1].
  destruct (engine (collections_create COLLECTION_SCHEMA) w1)
    as [[v | e] w2]; [| reflexivity].
  destruct (engine (documents_import COLLECTION_NAME sample_products) w2).
  reflexivity.
Qed.

(** The sleeps of a bootstrap from a fresh trace. *)
Lemma setup_typesense_sleeps (w : World) :
  sleeps_of (trace (snd (setup_typesense engine float_repr (State w []))))
  = take (min (leading_failures (retrieve_outcomes engine 10 w)) 9)
         backoff_delays.
Proof.
  destruct (setup_typesense_run engine float_repr w)
    as (t1 & Hrun & Hsteps & _).
  rewrite Hrun, sleeps_of_steps.
  destruct (_ <? 10)%nat.
  - destruct (create_and_populate_quiet engine
                (State (world_after engine
                          (S (leading_failures (retrieve_outcomes engine 10 w)))
                          w) t1))
      as (extra & -> & Hs & _).
    cbn [snd trace]. rewrite steps_of_app, Hs, app_nil_r, Hsteps.
    apply (sleeps_of_retries _ true).
  - cbn [snd trace]. rewrite Hsteps. apply (sleeps_of_retries _ false).
Qed.

(** X3: the bootstrap sleeps at most 149.7734375 seconds in all, whatever
    the engine does (the sum of the nine delays 2, 3, 4.5, ...). *)
Theorem bootstrap_total_sleep_bound (w : World) :
  PrimFloat.leb
    (total_sleep (trace (snd (setup_typesense engine float_repr (State w [])))))
    149.7734375%float
  = true.
Proof.
  unfold total_sleep. rewrite setup_typesense_sleeps.
  generalize (leading_failures (retrieve_outcomes engine 10 w)). intros k.
  assert (min k 9 <= 9)%nat as H by lia.
  set (m := min k 9) in *. clearbody m.
  do 10 (destruct m as [| m]; [reflexivity |]).
  exfalso. lia.
Qed.

(** *** GET /products/ *)

(** X4: for [limit > 0] the page asked of the engine is the one whose
    window of [limit] items holds [offset]; it is at least 1 exactly when
    [offset] is not negative: a negative offset is not refused, it asks
    for a page that is zero or negative. *)
Theorem get_all_products_page_window (limit offset : Z) (s : state World) :
  0 < limit ->
  let page := offset / limit + 1 in
  let c := documents_search COLLECTION_NAME (page_params limit page) in
  trace (snd (get_all_products engine limit offset s))
  = (trace s ++ [ECall c (fst (engine c (world s)))])%list
  /\ (page - 1) * limit <= offset < page * limit
  /\ (1 <= page <-> 0 <= offset).
Proof.
  intros Hl page c. split.
  - apply get_all_products_trace. lia.
  - pose proof (Z.div_mod offset limit ltac:(lia)) as Hd.
    pose proof (Z.mod_pos_bound offset limit Hl) as Hm.
    unfold page. split; [nia |]. split; intros H.
    + nia.
    + pose proof (Z.div_pos offset limit H Hl). lia.
Qed.

Lemma result_map_Forall2 {A B} (f : A -> result B) (l : list A) (l' : list B) :
  Forall2 (fun x y => f x = Ok y) l l' -> result_map f l = Ok l'.
Proof.
  induction 1 as [| x y l l' Hx _ IH]; [reflexivity |].
  cbn [result_map]. rewrite Hx, IH. reflexivity.
Qed.

Lemma result_map_Exists {A B} (f : A -> result B) (l : list A) :
  Exists (fun x => is_raise (f x) = true) l ->
  is_raise (result_map f l) = true.
Proof.
  induction 1 as [x l Hx | x l _ IH]; cbn [result_map].
  - destruct (f x); [discriminate Hx | reflexivity].
  - destruct (f x); [| reflexivity].
    destruct (result_map f l); [discriminate IH | reflexivity].
Qed.

(** X5: when the search returns a result with a count and a list of hits
    that each carry a document, GET /products/ answers with the count as
    total, the page and the limit it asked for, and the documents of the
    hits in the order of the hits. *)
Theorem get_all_products_listing (limit offset : Z) (s : state World)
    (results total : value) (hits docs : list value) (w' : World) :
  limit <> 0 ->
  engine (documents_search COLLECTION_NAME
            (page_params limit (offset / limit + 1))) (world s)
  = (Ok results, w') ->
  getitem results "found" = Ok total ->
  getitem results "hits" = Ok (VList hits) ->
  Forall2 (fun hit doc => getitem hit "document" = Ok doc) hits docs ->
  fst (get_all_products engine limit offset s)
  = Body (VDict [("total", total); ("page", VInt (offset / limit + 1));
                 ("per_page", VInt limit); ("products", VList docs)]).
Proof.
  intros Hl He Hf Hh Hd. unfold get_all_products, try_http.
  rewrite (floordiv_nonzero _ _ Hl). unfold_M. unfold client.
  unfold page_params in He. rewrite He, Hf, Hh. cbn [py_iter].
  rewrite (result_map_Forall2 _ _ _ Hd). reflexivity.
Qed.

(** X6: a result of the search without the key [found] makes
    GET /products/ answer 400 with the text of the [KeyError], even when
    its hits are in order. *)
Theorem get_all_products_missing_found (limit offset : Z) (s : state World)
    (d : list (string * value)) (w' : World) :
  limit <> 0 ->
  engine (documents_search COLLECTION_NAME
            (page_params limit (offset / limit + 1))) (world s)
  = (Ok (VDict d), w') ->
  dict_lookup "found" d = None ->
  fst (get_all_products engine limit offset s)
  = HTTPException 400 "Failed to get products: 'found'".
Proof.
  intros Hl He Hf. unfold get_all_products, try_http.
  rewrite (floordiv_nonzero _ _ Hl). unfold_M. unfold client.
  unfold page_params in He. rewrite He. cbn [getitem]. rewrite Hf.
  reflexivity.
Qed.

(** X7: one hit without a document is enough for GET /products/ to answer
    400: the listing is never partial. *)
Theorem get_all_products_bad_hit (limit offset : Z) (s : state World)
    (results total : value) (hits : list value) (w' : World) :
  limit <> 0 ->
  engine (documents_search COLLECTION_NAME
            (page_params limit (offset / limit + 1))) (world s)
  = (Ok results, w') ->
  getitem results "found" = Ok total ->
  getitem results "hits" = Ok (VList hits) ->
  Exists (fun hit => is_raise (getitem hit "document") = true) hits ->
  exists detail,
    fst (get_all_products engine limit offset s) = HTTPException 400 detail.
Proof.
  intros Hl He Hf Hh Hbad. unfold get_all_products, try_http.
  rewrite (floordiv_nonzero _ _ Hl). unfold_M. unfold client.
  unfold page_params in He. rewrite He, Hf, Hh. cbn [py_iter].
  apply result_map_Exists in Hbad.
  destruct (result_map _ hits); [discriminate Hbad |].
  eexists. reflexivity.
Qed.

(** *** POST /search/ *)

(** X8: whatever the filters, the parameters of the search of
    POST /search/ carry the query text as [q] and the fixed [query_by] and
    [sort_by]; they have no other key than these and [filter_by]. *)
Theorem search_params_keys (q : SearchQuery) :
  let p := search_params_of float_repr q in
  p !! "q" = Some (VStr (query q))
  /\ p !! "query_by" = Some (VStr "name,description,tags")
  /\ p !! "sort_by" = Some (VStr "rating:desc,price:asc")
  /\ forall k, is_Some (p !! k) ->
       k = "q" \/ k = "query_by" \/ k = "sort_by" \/ k = "filter_by".
Proof.
  cbn zeta. unfold search_params_of.
  destruct (search_filters float_repr q) as [| c l].
  - repeat split; try reflexivity.
    intros k Hk. apply elem_of_dom in Hk.
    rewrite !dom_insert_L, dom_singleton_L in Hk.
    set_unfold in Hk. tauto.
  - repeat split; try reflexivity.
    intros k Hk. apply elem_of_dom in Hk.
    rewrite !dom_insert_L, dom_singleton_L in Hk.
    set_unfold in Hk. tauto.
Qed.

(** *** GET /admin/collection/{name}/stats *)

(** X9: when the collection cannot be retrieved, the stats route answers
    400 (the plain collection route answers 404 there) and makes no
    search: the failed retrieval is the only event of the request. *)
Theorem get_collection_stats_unknown_collection (collection_name : string)
    (s : state World) (e : exception) (w' : World) :
  engine (collection_retrieve (VStr collection_name)) (world s) = (Raise e, w') ->
  get_collection_stats engine collection_name s
  = (HTTPException 400 ("Failed to get collection stats: " +:+ exc_str e),
     State w' (trace s ++ [ECall (collection_retrieve (VStr collection_name))
                                 (Raise e)])).
Proof.
  intros He. unfold get_collection_stats, try_http. unfold_M. unfold client.
  rewrite He. reflexivity.
Qed.

(** X10: the stats of a collection carry the schema the engine returned
    and the count of the search; the search time is the one of the search
    result, and 0 when the result has none. *)
Theorem get_collection_stats_body (collection_name : string) (s : state World)
    (info found : value) (d : list (string * value)) (w1 w2 : World) :
  engine (collection_retrieve (VStr collection_name)) (world s) = (Ok info, w1) ->
  engine (documents_search (VStr collection_name) count_params) w1
  = (Ok (VDict d), w2) ->
  dict_lookup "found" d = Some found ->
  fst (get_collection_stats engine collection_name s)
  = Body (VDict [("collection_name", VStr collection_name);
                 ("schema", info);
                 ("document_count", found);
                 ("search_time_ms",
                  match dict_lookup "search_time_ms" d with
                  | Some ms => ms
                  | None => VInt 0
                  end)]).
Proof.
  intros Hr Hs Hf. unfold get_collection_stats, try_http. unfold_M.
  unfold client. rewrite Hr. cbn [world]. rewrite Hs.
  cbn [getitem dict_get]. rewrite Hf.
  destruct (dict_lookup "search_time_ms" d); reflexivity.
Qed.

(** *** GET /recommendations/{id} *)

Lemma all_str_map (l : list string) : all_str (map VStr l) = Some l.
Proof.
  induction l as [| x l IH]; [reflexivity |].
  cbn [map all_str]. rewrite IH. reflexivity.
Qed.

(** X11: when the source product cannot be retrieved, the recommendations
    route answers 400 (GET /products/{id} answers 404 there) and makes no
    search. *)
Theorem get_recommendations_unknown_product (product_id : string) (limit : Z)
    (s : state World) (e : exception) (w' : World) :
  engine (document_retrieve COLLECTION_NAME product_id) (world s) = (Raise e, w') ->
  get_recommendations engine product_id limit s
  = (HTTPException 400 ("Failed to get recommendations: " +:+ exc_str e),
     State w' (trace s ++ [ECall (document_retrieve COLLECTION_NAME product_id)
                                 (Raise e)])).
Proof.
  intros He. unfold get_recommendations, try_http. unfold_M. unfold client.
  rewrite He. reflexivity.
Qed.

(** X12: for a source product with a list of tags, the recommendations
    route retrieves the product, then searches the products collection
    with the tags joined by a space as query, a filter that excludes the
    source id and [per_page = limit]; it answers with the source product
    and the hits of that search. *)
Theorem get_recommendations_search (product_id : string) (limit : Z)
    (s : state World) (source : value) (source_tags : list string)
    (results hits : value) (w1 w2 : World) :
  let c1 := document_retrieve COLLECTION_NAME product_id in
  let c2 := documents_search COLLECTION_NAME
              (recommendation_params product_id limit source_tags) in
  engine c1 (world s) = (Ok source, w1) ->
  getitem source "tags" = Ok (VList (map VStr source_tags)) ->
  engine c2 w1 = (Ok results, w2) ->
  getitem results "hits" = Ok hits ->
  get_recommendations engine product_id limit s
  = (Body (VDict [("source_product", source); ("recommendations", hits)]),
     State w2 (trace s ++ [ECall c1 (Ok source); ECall c2 (Ok results)])).
Proof.
  intros c1 c2 H1 Ht H2 Hh. unfold get_recommendations, try_http. unfold_M.
  unfold client. fold c1. rewrite H1, Ht.
  unfold str_join. cbn [py_iter]. rewrite all_str_map. cbn [world trace].
  change (documents_search COLLECTION_NAME _) with c2.
  rewrite H2, Hh. rewrite <- app_assoc. reflexivity.
Qed.

(** X13: a source product without the key [tags] makes the
    recommendations route answer 400 with the text of the [KeyError],
    before any search. *)
Theorem get_recommendations_missing_tags (product_id : string) (limit : Z)
    (s : state World) (d : list (string * value)) (w' : World) :
  let c1 := document_retrieve COLLECTION_NAME product_id in
  engine c1 (world s) = (Ok (VDict d), w') ->
  dict_lookup "tags" d = None ->
  get_recommendations engine product_id limit s
  = (HTTPException 400 "Failed to get recommendations: 'tags'",
     State w' (trace s ++ [ECall c1 (Ok (VDict d))])).
Proof.
  intros c1 H1 Ht. unfold get_recommendations, try_http. unfold_M.
  unfold client. fold c1. rewrite H1. cbn [getitem]. rewrite Ht.
  reflexivity.
Qed.

(** *** GET /admin/typesense/stats *)

(** On an entry of the listing, a turn of the loop gives an entry whatever
    the outcome of the search is. *)
Lemma turn_result_ok (collection n : value) (nfields : Z) :
  collection_info n nfields collection ->
  forall (total_docs : value) (collection_stats : list value)
         (r : result value),
  exists total entry,
    turn_result collection total_docs collection_stats r
    = Ok (total, (collection_stats ++ [entry])%list).
Proof.
  intros (Hn & fields & Hf & Hl) total_docs collection_stats r.
  assert (exists entry, unknown_entry collection = Ok entry) as (u & Hu).
  { unfold unknown_entry. rewrite Hn. cbn. rewrite Hf. cbn. rewrite Hl.
    eexists. reflexivity. }
  assert (forall dc, exists entry, counted_entry collection dc = Ok entry)
    as Hc.
  { intros dc. unfold counted_entry. rewrite Hn. cbn. rewrite Hf. cbn.
    rewrite Hl. eexists. reflexivity. }
  unfold turn_result. unfold mbind at 1 2 3. unfold result_bind.
  destruct r as [sr | e].
  - destruct (getitem sr "found") as [dc | e1].
    + destruct (py_add total_docs dc) as [total | e2].
      * cbn. destruct (Hc dc) as (entry & ->). eexists _, _. reflexivity.
      * rewrite Hu. eexists _, _. reflexivity.
    + rewrite Hu. eexists _, _. reflexivity.
  - rewrite Hu. eexists _, _. reflexivity.
Qed.

(** The loop over a listing: one search for each collection, in the order
    of the listing, and one entry for each, whatever the searches give. *)
Lemma stats_loop_listing (collections : list value) (infos : list (value * Z)) :
  Forall2 (fun c i => collection_info (fst i) (snd i) c) collections infos ->
  forall (total_docs : value) (collection_stats : list value)
         (s : state World),
  exists (total : value) (entries : list value) (t : list event) (w' : World),
    stats_loop engine collections total_docs collection_stats s
    = (Ok (total, (collection_stats ++ entries)%list),
       State w' (trace s ++ t))
    /\ length entries = length collections
    /\ calls_of t = map (fun i => documents_search (fst i) count_params) infos.
Proof.
  induction 1 as [| collection [n nfields] collections infos Hi _ IH];
    intros total_docs collection_stats s.
  - exists total_docs, [], [], (world s). cbn. rewrite !app_nil_r.
    destruct s. repeat split.
  - cbn [stats_loop]. unfold mbind at 1. unfold M_bind.
    rewrite stats_body_run. pose proof Hi as (Hn & _). cbn [fst] in Hn.
    rewrite Hn.
    destruct (engine (documents_search n count_params) (world s)) as [r w1].
    destruct (turn_result_ok _ _ _ Hi total_docs collection_stats r)
      as (total1 & entry & ->).
    cbn [fst snd].
    destruct (IH total1 (collection_stats ++ [entry])%list
                (State w1 (trace s ++ [ECall (documents_search n count_params) r])))
      as (total & entries & t & w' & Hrun & Hlen & Hcalls).
    exists total, (entry :: entries),
           (ECall (documents_search n count_params) r :: t), w'.
    split; [| split].
    + rewrite Hrun. cbn [trace]. rewrite <- !app_assoc. reflexivity.
    + cbn [length]. rewrite Hlen. reflexivity.
    + unfold calls_of in *. cbn. rewrite Hcalls. reflexivity.
Qed.

(** X14: on a listing of collections that carry a name, the stats route
    searches every collection once, in the order of the listing, and
    answers with a body that has one entry for each collection, whatever
    the searches return or raise: no failure and no malformed result of a
    search stops the loop or turns the answer into an error. *)
Theorem get_typesense_stats_searches_each (s : state World)
    (collections : list value) (w1 : World) (infos : list (value * Z)) :
  engine collections_retrieve (world s) = (Ok (VList collections), w1) ->
  Forall2 (fun c i => collection_info (fst i) (snd i) c) collections infos ->
  exists (total : value) (entries : list value) (t : list event),
    fst (get_typesense_stats engine s)
    = Body (VDict [("total_collections", VInt (Z.of_nat (length collections)));
                   ("total_documents", total);
                   ("collections", VList entries)])
    /\ length entries = length collections
    /\ trace (snd (get_typesense_stats engine s))
       = (trace s ++ ECall collections_retrieve (Ok (VList collections)) :: t)%list
    /\ calls_of t = map (fun i => documents_search (fst i) count_params) infos.
Proof.
  intros He Hi. unfold get_typesense_stats, try_http. unfold_M.
  unfold client. rewrite He. cbn [py_iter py_len].
  destruct (stats_loop_listing _ _ Hi (VInt 0) []
              (State w1 (trace s ++ [ECall collections_retrieve
                                       (Ok (VList collections))])))
    as (total & entries & t & w' & Hrun & Hlen & Hcalls).
  rewrite Hrun. exists total, entries, t. cbn [fst snd trace app].
  rewrite <- app_assoc. repeat split; assumption.
Qed.

(** The loop stops at a collection without a name. *)
Lemma stats_loop_nameless (good : list value) (infos : list (value * Z))
    (bad : value) (rest : list value) (e : exception) :
  Forall2 (fun c i => collection_info (fst i) (snd i) c) good infos ->
  getitem bad "name" = Raise e ->
  forall (total_docs : value) (collection_stats : list value)
         (s : state World),
  exists (t : list event) (w' : World),
    stats_loop engine (good ++ bad :: rest) total_docs collection_stats s
    = (Raise e, State w' (trace s ++ t))
    /\ calls_of t = map (fun i => documents_search (fst i) count_params) infos.
Proof.
  intros Hgood Hbad.
  induction Hgood as [| collection [n nfields] good infos Hi _ IH];
    intros total_docs collection_stats s.
  - exists [], (world s). cbn [app stats_loop]. unfold mbind at 1.
    unfold M_bind. rewrite stats_body_run, Hbad.
    unfold unknown_entry. rewrite Hbad. cbn. rewrite app_nil_r.
    destruct s. split; reflexivity.
  - cbn [app stats_loop]. unfold mbind at 1. unfold M_bind.
    rewrite stats_body_run. pose proof Hi as (Hn & _). cbn [fst] in Hn.
    rewrite Hn.
    destruct (engine (documents_search n count_params) (world s)) as [r w1].
    destruct (turn_result_ok _ _ _ Hi total_docs collection_stats r)
      as (total1 & entry & ->).
    cbn [fst snd].
    destruct (IH total1 (collection_stats ++ [entry])%list
                (State w1 (trace s ++ [ECall (documents_search n count_params) r])))
      as (t & w' & Hrun & Hcalls).
    exists (ECall (documents_search n count_params) r :: t), w'. split.
    + rewrite Hrun. cbn [trace]. rewrite <- !app_assoc. reflexivity.
    + unfold calls_of in *. cbn. rewrite Hcalls. reflexivity.
Qed.

(** X15: a collection of the listing without the key [name] makes the
    stats route answer 400 with the text of the [KeyError] instead of an
    ["unknown"] entry; the collections before it have been searched, those
    after it are not. *)
Theorem get_typesense_stats_nameless (s : state World)
    (good : list value) (infos : list (value * Z)) (bad : value)
    (rest : list value) (e : exception) (w1 : World) :
  engine collections_retrieve (world s)
  = (Ok (VList (good ++ bad :: rest)), w1) ->
  Forall2 (fun c i => collection_info (fst i) (snd i) c) good infos ->
  getitem bad "name" = Raise e ->
  fst (get_typesense_stats engine s)
  = HTTPException 400 ("Failed to get Typesense stats: " +:+ exc_str e)
  /\ exists t,
       trace (snd (get_typesense_stats engine s))
       = (trace s ++ ECall collections_retrieve
                       (Ok (VList (good ++ bad :: rest))) :: t)%list
       /\ calls_of t
          = map (fun i => documents_search (fst i) count_params) infos.
Proof.
  intros He Hgood Hbad. unfold get_typesense_stats, try_http. unfold_M.
  unfold client. rewrite He. cbn [py_iter].
  destruct (stats_loop_nameless _ _ _ rest _ Hgood Hbad (VInt 0) []
              (State w1 (trace s ++ [ECall collections_retrieve
                                       (Ok (VList (good ++ bad :: rest)))])))
    as (t & w' & Hrun & Hcalls).
  rewrite Hrun. cbn [fst snd trace]. split; [reflexivity |].
  exists t. rewrite <- app_assoc. split; [reflexivity | exact Hcalls].
Qed.

(** *** GET /categories/ *)

(** X16: a facet without the key [field_name] makes GET /categories/
    answer 400 with the text of the [KeyError], also when the facet of
    the category is among the facets before it. *)
Theorem get_categories_bad_facet (s : state World) (d : list (string * value))
    (w' : World) (before : list value) (bad : value) (after : list value)
    (e : exception) :
  engine (documents_search COLLECTION_NAME facet_params) (world s)
  = (Ok (VDict d), w') ->
  dict_lookup "facet_counts" d = Some (VList (before ++ bad :: after)) ->
  Forall wellformed_facet before ->
  getitem bad "field_name" = Raise e ->
  fst (get_categories engine s)
  = HTTPException 400 ("Failed to get categories: " +:+ exc_str e).
Proof.
  intros He Hd Hb Hbad. unfold get_categories, try_http. unfold_M.
  unfold client. rewrite He.
  assert (categories_of (VDict d) = Raise e) as ->; [| reflexivity].
  unfold categories_of. cbn. unfold dict_contains. rewrite Hd. cbn.
  rewrite facet_loop_app.
  destruct (facet_loop_wellformed _ Hb []) as (c & ->). cbn.
  rewrite Hbad. reflexivity.
Qed.

(** *** Every route: fail fast, calls only *)

Section FailFast.
Variable P : call -> Prop.

Lemma fail_fast_ret {A} (a : A) : fail_fast P (mret a : M World A).
Proof.
  intros s. exists []. split; [symmetry; apply app_nil_r |].
  split; [constructor | intros c e []].
Qed.

Lemma fail_fast_lift {A} (r : result A) : fail_fast P (lift r : M World A).
Proof.
  intros s. exists []. split; [symmetry; apply app_nil_r |].
  split; [constructor | intros c e []].
Qed.

Lemma fail_fast_client (c : call) : fail_fast P (client engine c).
Proof.
  intros s. unfold client. destruct (engine c (world s)) as [r w'].
  exists [ECall c r]. split; [reflexivity |]. split.
  - constructor; [eexists _, _; reflexivity | constructor].
  - intros c' e [H | []] _. inversion H. split; reflexivity.
Qed.

Lemma fail_fast_bind {A B} (m : M World A) (k : A -> M World B) :
  fail_fast P m -> (forall a, fail_fast P (k a)) -> fail_fast P (m ≫= k).
Proof.
  intros Hm Hk s. destruct (Hm s) as (t1 & Ht1 & Hc1 & H1).
  unfold mbind, M_bind. destruct (m s) as [[a | e1] s1]; cbn [fst snd] in *.
  - destruct (Hk a s1) as (t2 & Ht2 & Hc2 & H2).
    exists (t1 ++ t2)%list. split; [| split].
    + rewrite Ht2, Ht1. symmetry. apply app_assoc.
    + apply Forall_app. split; assumption.
    + intros c e Hin Hc. apply in_app_or in Hin. destruct Hin as [Hin | Hin].
      * destruct (H1 c e Hin Hc) as [H _]. discriminate H.
      * destruct (H2 c e Hin Hc) as [Hr Hl]. split; [exact Hr |].
        destruct t2 as [| ev t2]; [destruct Hin |].
        rewrite last_app, Hl. reflexivity.
  - exists t1. split; [exact Ht1 |]. split; [exact Hc1 |].
    intros c e Hin Hc. destruct (H1 c e Hin Hc) as [Hr Hl].
    split; [congruence | exact Hl].
Qed.

(** A computation that only searches fails fast on calls that are not
    searches. *)
Lemma fail_fast_searches {A} (m : M World A) :
  (forall c, P c -> forall n p, c <> documents_search n p) ->
  (forall s, exists t : list event,
      trace (snd (m s)) = (trace s ++ t)%list /\ Forall is_search t) ->
  fail_fast P m.
Proof.
  intros HP H s. destruct (H s) as (t & Ht & Hall).
  exists t. split; [exact Ht |]. split.
  - eapply Forall_impl; [exact Hall |].
    intros ev (n & p & r & ->). eexists _, _. reflexivity.
  - intros c e Hin Hc. rewrite Forall_forall in Hall.
    destruct (Hall _ (proj2 (list_elem_of_In _ _) Hin)) as (n & p & r & Heq).
    inversion Heq; subst. destruct (HP _ Hc n p eq_refl).
Qed.

Lemma try_http_fail_fast (body : M World value)
    (on_error : exception -> response) (s : state World) :
  fail_fast P body ->
  exists t : list event,
    trace (snd (try_http body on_error s)) = (trace s ++ t)%list
    /\ Forall is_call t
    /\ forall c e, In (ECall c (Raise e)) t -> P c ->
         last t = Some (ECall c (Raise e)).
Proof.
  intros Hb. destruct (Hb s) as (t & Ht & Hc & H). unfold try_http.
  destruct (body s) as [[v | e0] s1]; exists t;
    (split; [exact Ht |]); (split; [exact Hc |]);
    intros c e Hin HP; exact (proj2 (H c e Hin HP)).
Qed.

End FailFast.

Lemma not_absorbed_stats (c : call) :
  ~ absorbed GET_admin_typesense_stats c ->
  forall n p, c <> documents_search n p.
Proof. intros H n p ->. apply H. cbn. discriminate. Qed.

(** Composes the lemmas on [fail_fast] along the structure of a body. *)
Ltac fail_fast_steps :=
  repeat first
    [ apply fail_fast_ret
    | apply fail_fast_lift
    | apply fail_fast_client
    | apply fail_fast_searches; [apply not_absorbed_stats
                                | apply stats_loop_searches]
    | apply fail_fast_bind; [| intros ?]
    | progress cbn zeta ].

Lemma handle_fail_fast (r : request) (s : state World) :
  exists t : list event,
    trace (snd (handle engine float_repr r s)) = (trace s ++ t)%list
    /\ Forall is_call t
    /\ forall c e, In (ECall c (Raise e)) t -> ~ absorbed r c ->
         last t = Some (ECall c (Raise e)).
Proof.
  destruct r; cbn [handle].
  1: { exists []. split; [symmetry; apply app_nil_r |].
       split; [constructor | intros c e []]. }
  1: { unfold health_check.
       destruct (try_http_fail_fast (fun _ => True)
                   (collections ← client engine collections_retrieve;
                    n ← lift (py_len collections);
                    mret (healthy n))
                   (fun e => Body (degraded e)) s)
         as (t & Ht & Hc & _); [fail_fast_steps |].
       exists t. split; [exact Ht |]. split; [exact Hc |].
       intros c e _ H. destruct (H I). }
  all: match goal with
       | |- context [absorbed ?r _] =>
           apply (try_http_fail_fast (fun c => ~ absorbed r c))
       end; fail_fast_steps.
Qed.

(** X17: for every route, a failed call of the client that the route does
    not absorb is the last event of the request: the handler calls the
    client no more after it, neither to retry nor to go on. *)
Theorem request_fails_fast (r : request) (w : World) (c : call)
    (e : exception) :
  In (ECall c (Raise e))
     (trace (snd (handle engine float_repr r (State w [])))) ->
  ~ absorbed r c ->
  last (trace (snd (handle engine float_repr r (State w []))))
  = Some (ECall c (Raise e)).
Proof.
  intros Hin Hc. destruct (handle_fail_fast r (State w [])) as (t & Ht & _ & H).
  cbn [trace app] in Ht. rewrite Ht in Hin |- *. exact (H c e Hin Hc).
Qed.

(** X18: a request only appends to the trace, and what it appends are
    calls of the client: no route sleeps and no route prints. *)
Theorem request_only_calls (r : request) (s : state World) :
  exists t : list event,
    trace (snd (handle engine float_repr r s)) = (trace s ++ t)%list
    /\ Forall is_call t
    /\ sleeps_of t = [].
Proof.
  destruct (handle_fail_fast r s) as (t & Ht & Hc & _).
  exists t. split; [exact Ht |]. split; [exact Hc |].
  clear Ht. induction Hc as [| ev t (c & res & ->) _ IH]; [reflexivity |].
  exact IH.
Qed.

(** *** The lines of the bootstrap *)

Lemma printed_app (t1 t2 : list event) :
  printed (t1 ++ t2) = (printed t1 ++ printed t2)%list.
Proof. apply omap_app. Qed.

(** The loop over the last [n] of the ten attempts when one of them
    succeeds after [k] failures: one line for each attempt made, the last
    one for the attempt that connects. *)
Lemma for_attempts_lines (n : nat) :
  forall (i : nat) (d : number) (s : state World),
    (i + n = 10)%nat ->
    let k := leading_failures (retrieve_outcomes engine n (world s)) in
    (k < n)%nat ->
    exists t : list event,
      trace (snd (for_attempts engine float_repr (map Z.of_nat (seq i n)) d s))
      = (trace s ++ t)%list
      /\ length (printed t) = S k
      /\ last (printed t) = Some (connected_line (Z.of_nat (i + k) + 1)).
Proof.
  induction n as [| n IH]; intros i d s Hi k Hk; [lia |].
  subst k. cbn [seq map]. rewrite for_attempts_cons.
  cbn [retrieve_outcomes] in Hk |- *.
  destruct (engine collections_retrieve (world s)) as [[v | e] w'].
  - cbn [leading_failures]. eexists. split; [reflexivity |].
    rewrite Nat.add_0_r. split; reflexivity.
  - cbn [leading_failures] in Hk |- *.
    destruct n as [| n]; [lia |].
    assert ((Z.of_nat i <? max_retries - 1)%Z = true) as ->.
    { apply Z.ltb_lt. unfold max_retries. lia. }
    set (s1 := State w' _).
    pose proof (IH (S i) (number_mul_float d 1.5%float) s1 ltac:(lia)) as IH'.
    cbn zeta in IH'. change (world s1) with w' in IH'.
    destruct (IH' ltac:(lia)) as (t & Ht & Hlen & Hlast).
    eexists (_ ++ t)%list. split.
    + rewrite Ht. unfold s1. cbn [trace]. rewrite <- app_assoc. reflexivity.
    + rewrite printed_app, length_app, Hlen. split; [reflexivity |].
      rewrite last_app, Hlast.
      replace (i + S (leading_failures (retrieve_outcomes engine (S n) w')))%nat
        with (S i + leading_failures (retrieve_outcomes engine (S n) w'))%nat
        by lia.
      reflexivity.
Qed.

(** X19: when the engine is reached after [k] failed attempts, the
    bootstrap prints [k + 2] lines: one for each failed attempt, then the
    line of the connection, which names the attempt [k + 1] (attempts are
    numbered from 1), then one line for the outcome of the second phase. *)
Theorem bootstrap_log_connected (w : World) :
  let k := leading_failures (retrieve_outcomes engine 10 w) in
  let lines :=
    printed (trace (snd (setup_typesense engine float_repr (State w [])))) in
  (k < 10)%nat ->
  length lines = (k + 2)%nat
  /\ lines !! k = Some (connected_line (Z.of_nat k + 1)).
Proof.
  intros k lines Hk.
  destruct (for_attempts_lines 10 0 (NInt 2) (State w []) eq_refl Hk)
    as (t1 & Ht1 & Hlen & Hlast).
  destruct (for_attempts_run engine float_repr 10 0 (NInt 2) (State w []) eq_refl)
    as (t1' & Hrun & _).
  cbn [world trace app] in Ht1, Hlen, Hlast, Hrun. fold k in Hlen, Hlast, Hrun.
  rewrite Hrun in Ht1. cbn [snd trace] in Ht1. subst t1'.
  assert (exists line,
             lines = (printed t1 ++ [line])%list) as (line & Hlines).
  { unfold lines, setup_typesense. unfold_M.
    change (range max_retries) with (map Z.of_nat (seq 0 10)).
    rewrite Hrun. unfold loop_end. apply Nat.ltb_lt in Hk. rewrite Hk.
    rewrite create_and_populate_run. cbn [world trace].
    destruct (engine (collection_delete COLLECTION_NAME) _) as [r_del w1].
    destruct (engine (collections_create COLLECTION_SCHEMA) w1)
      as [[v | e] w2].
    - destruct (engine (documents_import COLLECTION_NAME sample_products) w2)
        as [r_imp w3].
      cbn [snd trace]. rewrite printed_app. eexists. reflexivity.
    - cbn [snd trace]. rewrite printed_app. eexists. reflexivity. }
  rewrite Hlines, length_app, Hlen. split; [cbn; lia |].
  rewrite lookup_app_l by lia.
  rewrite last_lookup, Hlen in Hlast. exact Hlast.
Qed.

(** *** The probe of GET /health and the bootstrap *)

(** X20: the bootstrap makes the same probe as GET /health: started in a
    world where GET /health reports the engine as healthy, it connects at
    the first attempt and does not sleep. *)
Theorem healthy_bootstrap_no_sleep (w : World) (t : list event) (n : Z) :
  fst (health_check engine (State w t)) = Body (healthy n) ->
  sleeps_of (trace (snd (setup_typesense engine float_repr (State w [])))) = []
  /\ length (attempts_of
               (trace (snd (setup_typesense engine float_repr (State w [])))))
     = 1%nat.
Proof.
  intros Hh.
  assert (leading_failures (retrieve_outcomes engine 10 w) = O) as Hk.
  { revert Hh. unfold health_check, try_http. unfold_M. unfold client.
    cbn [retrieve_outcomes world].
    destruct (engine collections_retrieve w) as [[v | e] w'].
    - reflexivity.
    - intros H. discriminate H. }
  split.
  - rewrite setup_typesense_sleeps, Hk. reflexivity.
  - destruct (setup_typesense_run engine float_repr w)
      as (t1 & Hrun & _ & Hatt & _).
    rewrite Hk in Hrun, Hatt. rewrite Hrun. cbn [Nat.ltb Nat.leb].
    destruct (create_and_populate_quiet engine
                (State (world_after engine 1 w) t1))
      as (extra & -> & _ & Ha).
    cbn [snd trace]. rewrite attempts_of_app, Ha, app_nil_r, Hatt.
    rewrite length_take, length_retrieve_outcomes. reflexivity.
Qed.

End Coverage.

(** ** Runs of the further properties on the scripted engine *)

Definition laptop : value :=
  VDict [("id", VStr "3"); ("name", VStr "MacBook Pro M3");
         ("tags", VList [VStr "laptop"; VStr "apple"])].

Definition headphones : value :=
  VDict [("id", VStr "5"); ("name", VStr "Sony WH-1000XM5");
         ("tags", VList [VStr "headphones"; VStr "sony"])].

Definition hit_of (document : value) : value :=
  VDict [("document", document); ("text_match", VInt 100)].

(** A page of two hits, and one whose second hit has no document. *)
Definition page_of_two : value :=
  VDict [("found", VInt 2); ("hits", VList [hit_of laptop; hit_of headphones])].

Definition page_with_bad_hit : value :=
  VDict [("found", VInt 2);
         ("hits", VList [hit_of laptop; VDict [("text_match", VInt 100)]])].

(** A listing whose second collection has no name. *)
Definition nameless_collection : value := VDict [("fields", VList [])].

Definition nameless_world : list (result value) :=
  [Ok (VList [products_collection; nameless_collection; orders_collection]);
   Ok (VDict [("found", VInt 5)])].

(** A listing of two collections; the first search returns no count, the
    second one fails. *)
Definition uncounted_world : list (result value) :=
  [Ok (VList [products_collection; orders_collection]);
   Ok (VDict [("hits", VList [])]);
   Raise refused].

(** A search result whose second facet has no field name. *)
Definition nameless_facet : value := VDict [("counts", VList [])].

Definition bad_facet_result : list (string * value) :=
  [("facet_counts", VList [category_facet; nameless_facet]); ("found", VInt 5)].

(** A negative offset: the page asked for is 0. *)
Lemma get_all_products_page_window_witness :
  trace (snd (get_all_products scripted 10 (-1) (State [Ok empty_page] [])))
  = [ECall (documents_search COLLECTION_NAME (page_params 10 0)) (Ok empty_page)]
  /\ (0 - 1) * 10 <= -1 < 0 * 10
  /\ (1 <= 0 <-> 0 <= -1).
Proof.
  exact (get_all_products_page_window scripted 10 (-1)
           (State [Ok empty_page] []) ltac:(lia)).
Defined.

Lemma get_all_products_listing_witness :
  fst (get_all_products scripted 10 0 (State [Ok page_of_two] []))
  = Body (VDict [("total", VInt 2); ("page", VInt 1); ("per_page", VInt 10);
                 ("products", VList [laptop; headphones])]).
Proof.
  refine (get_all_products_listing scripted 10 0 (State [Ok page_of_two] [])
            page_of_two (VInt 2) [hit_of laptop; hit_of headphones]
            [laptop; headphones] [] ltac:(lia) eq_refl eq_refl eq_refl _).
  repeat constructor.
Defined.

Lemma get_all_products_missing_found_witness :
  fst (get_all_products scripted 10 0
         (State [Ok (VDict [("hits", VList [])])] []))
  = HTTPException 400 "Failed to get products: 'found'".
Proof.
  exact (get_all_products_missing_found scripted 10 0
           (State [Ok (VDict [("hits", VList [])])] [])
           [("hits", VList [])] [] ltac:(lia) eq_refl eq_refl).
Defined.

Lemma get_all_products_bad_hit_witness :
  exists detail,
    fst (get_all_products scripted 10 0 (State [Ok page_with_bad_hit] []))
    = HTTPException 400 detail.
Proof.
  refine (get_all_products_bad_hit scripted 10 0
            (State [Ok page_with_bad_hit] []) page_with_bad_hit (VInt 2)
            [hit_of laptop; VDict [("text_match", VInt 100)]] []
            ltac:(lia) eq_refl eq_refl eq_refl _).
  right. left. reflexivity.
Defined.

Lemma get_collection_stats_unknown_collection_witness :
  get_collection_stats scripted "orders" (State [Raise not_found] [])
  = (HTTPException 400
       "Failed to get collection stats: [Errno 404] Not Found",
     State [] [ECall (collection_retrieve (VStr "orders")) (Raise not_found)]).
Proof.
  exact (get_collection_stats_unknown_collection scripted "orders"
           (State [Raise not_found] []) not_found [] eq_refl).
Defined.

(** A search result without a search time: the stats report 0. *)
Lemma get_collection_stats_body_witness :
  fst (get_collection_stats scripted "products"
         (State [Ok COLLECTION_SCHEMA; Ok (VDict [("found", VInt 5)])] []))
  = Body (VDict [("collection_name", VStr "products");
                 ("schema", COLLECTION_SCHEMA);
                 ("document_count", VInt 5);
                 ("search_time_ms", VInt 0)]).
Proof.
  exact (get_collection_stats_body scripted "products"
           (State [Ok COLLECTION_SCHEMA; Ok (VDict [("found", VInt 5)])] [])
           COLLECTION_SCHEMA (VInt 5) [("found", VInt 5)]
           [Ok (VDict [("found", VInt 5)])] [] eq_refl eq_refl eq_refl).
Defined.

Lemma get_recommendations_unknown_product_witness :
  get_recommendations scripted "42" 5 (State [Raise not_found] [])
  = (HTTPException 400
       "Failed to get recommendations: [Errno 404] Not Found",
     State [] [ECall (document_retrieve COLLECTION_NAME "42") (Raise not_found)]).
Proof.
  exact (get_recommendations_unknown_product scripted "42" 5
           (State [Raise not_found] []) not_found [] eq_refl).
Defined.

Lemma get_recommendations_search_witness :
  get_recommendations scripted "3" 5 (State [Ok laptop; Ok page_of_two] [])
  = (Body (VDict [("source_product", laptop);
                  ("recommendations", VList [hit_of laptop; hit_of headphones])]),
     State []
       [ECall (document_retrieve COLLECTION_NAME "3") (Ok laptop);
        ECall (documents_search COLLECTION_NAME
                 (recommendation_params "3" 5 ["laptop"; "apple"]))
              (Ok page_of_two)]).
Proof.
  exact (get_recommendations_search scripted "3" 5
           (State [Ok laptop; Ok page_of_two] []) laptop ["laptop"; "apple"]
           page_of_two (VList [hit_of laptop; hit_of headphones])
           [Ok page_of_two] [] eq_refl eq_refl eq_refl eq_refl).
Defined.

Lemma get_recommendations_missing_tags_witness :
  get_recommendations scripted "3" 5 (State [Ok (VDict [("id", VStr "3")])] [])
  = (HTTPException 400 "Failed to get recommendations: 'tags'",
     State [] [ECall (document_retrieve COLLECTION_NAME "3")
                 (Ok (VDict [("id", VStr "3")]))]).
Proof.
  exact (get_recommendations_missing_tags scripted "3" 5
           (State [Ok (VDict [("id", VStr "3")])] [])
           [("id", VStr "3")] [] eq_refl eq_refl).
Defined.

Lemma products_collection_info :
  collection_info (VStr "products") 3 products_collection.
Proof. split; [reflexivity |]. eexists. split; reflexivity. Defined.

Lemma orders_collection_info :
  collection_info (VStr "orders") 0 orders_collection.
Proof. split; [reflexivity |]. eexists. split; reflexivity. Defined.

Lemma get_typesense_stats_searches_each_witness :
  exists (total : value) (entries : list value) (t : list event),
    fst (get_typesense_stats scripted (State uncounted_world []))
    = Body (VDict [("total_collections", VInt 2);
                   ("total_documents", total);
                   ("collections", VList entries)])
    /\ length entries = 2%nat
    /\ trace (snd (get_typesense_stats scripted (State uncounted_world [])))
       = ECall collections_retrieve
           (Ok (VList [products_collection; orders_collection])) :: t
    /\ calls_of t = [documents_search (VStr "products") count_params;
                     documents_search (VStr "orders") count_params].
Proof.
  refine (get_typesense_stats_searches_each scripted (State uncounted_world [])
            [products_collection; orders_collection]
            [Ok (VDict [("hits", VList [])]); Raise refused]
            [(VStr "products", 3); (VStr "orders", 0)] eq_refl _).
  constructor; [exact products_collection_info |].
  constructor; [exact orders_collection_info | constructor].
Defined.

Lemma get_typesense_stats_nameless_witness :
  fst (get_typesense_stats scripted (State nameless_world []))
  = HTTPException 400 "Failed to get Typesense stats: 'name'"
  /\ exists t,
       trace (snd (get_typesense_stats scripted (State nameless_world [])))
       = ECall collections_retrieve
           (Ok (VList [products_collection; nameless_collection;
                       orders_collection])) :: t
       /\ calls_of t = [documents_search (VStr "products") count_params].
Proof.
  refine (get_typesense_stats_nameless scripted (State nameless_world [])
            [products_collection] [(VStr "products", 3)] nameless_collection
            [orders_collection] (KeyError "name")
            [Ok (VDict [("found", VInt 5)])] eq_refl _ eq_refl).
  constructor; [exact products_collection_info | constructor].
Defined.

Lemma get_categories_bad_facet_witness :
  fst (get_categories scripted (State [Ok (VDict bad_facet_result)] []))
  = HTTPException 400 "Failed to get categories: 'field_name'".
Proof.
  refine (get_categories_bad_facet scripted
            (State [Ok (VDict bad_facet_result)] []) bad_facet_result []
            [category_facet] nameless_facet [] (KeyError "field_name")
            eq_refl eq_refl _ eq_refl).
  constructor; [| constructor].
  exists (VStr "category"), [VStr "Electronics"; VStr "Computers"; VStr "Audio"].
  eexists. split; [reflexivity |]. split; [reflexivity |].
  repeat constructor.
Defined.

(** The search of the recommendations fails after the source product was
    retrieved: it is the last event. *)
Lemma request_fails_fast_witness :
  last (trace (snd (handle scripted sample_repr (GET_recommendations "3" 5)
                      (State [Ok laptop; Raise refused] []))))
  = Some (ECall (documents_search COLLECTION_NAME
                   (recommendation_params "3" 5 ["laptop"; "apple"]))
                (Raise refused)).
Proof.
  apply (request_fails_fast scripted sample_repr (GET_recommendations "3" 5)
           [Ok laptop; Raise refused]).
  - right. left. reflexivity.
  - intros [].
Defined.

Lemma bootstrap_log_connected_witness :
  length (printed (trace (snd (setup_typesense scripted sample_repr
                                 (State second_attempt_world [])))))
  = 3%nat
  /\ printed (trace (snd (setup_typesense scripted sample_repr
                            (State second_attempt_world [])))) !! 1%nat
     = Some "Connected to Typesense on attempt 2".
Proof.
  exact (bootstrap_log_connected scripted sample_repr second_attempt_world
           ltac:(vm_compute; lia)).
Defined.

Lemma healthy_bootstrap_no_sleep_witness :
  sleeps_of (trace (snd (setup_typesense scripted sample_repr
                           (State [Ok (VList [])] []))))
  = []
  /\ length (attempts_of
               (trace (snd (setup_typesense scripted sample_repr
                              (State [Ok (VList [])] [])))))
     = 1%nat.
Proof.
  exact (healthy_bootstrap_no_sleep scripted sample_repr [Ok (VList [])] [] 0
           eq_refl).
Defined.
